(** * The abalone age predictor notebook

    A shallow embedding of the Python code of
    [tensorflow_abalone_age_predictor_using_layers.ipynb]: the model function
    [model_fn] handed to the TensorFlow estimator, and the code cells of the
    notebook that drive the SageMaker training and hosting service.

    Both pieces of code are straight-line glue over external collaborators
    (TensorFlow, NumPy, SageMaker).  A call into a collaborator is an _event_
    answered by a _handler_; a program is a tree of such calls.  The theorems
    quantify over every handler, so they hold whatever the collaborators
    answer, and whichever of their calls raise. *)

From Stdlib Require Import ZArith PrimFloat Ascii String.
From stdpp Require Import base option list strings gmap.

Local Open Scope Z_scope.
Local Open Scope string_scope.
Local Open Scope list_scope.
#[local] Set Warnings "-inexact-float".

(** ** Python exceptions and results *)

(** The exceptions the code can meet: the two that Python itself raises on a
    failed subscript, and anything a collaborator raises (its class and
    message). *)
Inductive exn : Type :=
| KeyError (key : string)
| IndexError (msg : string)
| Raised (cls msg : string).

Inductive result (A : Type) : Type :=
| Ok (a : A)
| Err (e : exn).
Arguments Ok {A} a.
Arguments Err {A} e.

Definition is_ok {A} (r : result A) : bool :=
  match r with Ok _ => true | Err _ => false end.

(** ** Programs over external calls

    [Vis ev k] calls the collaborator with [ev] and continues with [k] on its
    answer; [Raise e] is an exception raised by the Python code itself.  There
    is no constructor for [try]/[except]: the source has none. *)
Inductive prog (E : Type -> Type) (A : Type) : Type :=
| Ret (a : A)
| Raise (e : exn)
| Vis (X : Type) (ev : E X) (k : X -> prog E A).
Arguments Ret {E A} a.
Arguments Raise {E A} e.
Arguments Vis {E A X} ev k.

Fixpoint bind {E A B} (p : prog E A) (f : A -> prog E B) : prog E B :=
  match p with
  | Ret a => f a
  | Raise e => Raise e
  | Vis ev k => Vis ev (fun x => bind (k x) f)
  end.

Definition call {E X} (ev : E X) : prog E X := Vis ev Ret.

#[export] Instance prog_ret {E} : MRet (prog E) := fun _ a => Ret a.
#[export] Instance prog_bind {E} : MBind (prog E) := fun _ _ f p => bind p f.

(** [d[k]] on a Python dict. *)
Definition getitem {E V} (d : gmap string V) (k : string) : prog E V :=
  match d !! k with
  | Some v => Ret v
  | None => Raise (KeyError k)
  end.

(** [l[i]] on a sequence, for a non-negative index. *)
Definition getindex {E V} (l : list V) (i : nat) : prog E V :=
  match l !! i with
  | Some v => Ret v
  | None => Raise (IndexError "index out of bounds")
  end.

(** ** Running a program against a handler

    The collaborators are stateful (a TensorFlow graph, a cloud account), so a
    handler threads a state of its own.  [exec] returns the outcome, the final
    state and the log of the calls made, each with its answer.  An exception
    ends the run. *)
Definition handler (E : Type -> Type) (St : Type) : Type :=
  forall X, E X -> St -> result X * St.

Inductive entry (E : Type -> Type) : Type :=
| Entry (X : Type) (ev : E X) (answer : result X).
Arguments Entry {E X} ev answer.

Definition called {E : Type -> Type} (ent : entry E) : sigT E :=
  match ent with Entry ev _ => existT _ ev end.

Definition raised {E} (ent : entry E) : option exn :=
  match ent with
  | Entry _ (Ok _) => None
  | Entry _ (Err e) => Some e
  end.

Fixpoint exec {E St A} (h : handler E St) (p : prog E A) (s : St)
  : result A * St * list (entry E) :=
  match p with
  | Ret a => (Ok a, s, [])
  | Raise e => (Err e, s, [])
  | Vis ev k =>
      match h _ ev s with
      | (Ok x, s') =>
          let '(r, s'', l) := exec h (k x) s' in
          (r, s'', Entry ev (Ok x) :: l)
      | (Err e, s') => (Err e, s', [Entry ev (Err e)])
      end
  end.

Definition run {E St A} (h : handler E St) (p : prog E A) (s : St) : result A :=
  (exec h p s).1.1.

Definition log {E St A} (h : handler E St) (p : prog E A) (s : St)
  : list (entry E) :=
  (exec h p s).2.

Definition trace {E St A} (h : handler E St) (p : prog E A) (s : St)
  : list (sigT E) :=
  called <$> log h p s.

(** [answered h ent]: the handler gives the answer of [ent] to its call, in
    some state. *)
Definition answered {E St} (h : handler E St) (ent : entry E) : Prop :=
  match ent with
  | Entry ev a => ∃ s, (h _ ev s).1 = a
  end.

(** ** The TensorFlow side: [model_fn] *)

(** [tf.estimator.ModeKeys]. *)
Inductive ModeKeys : Type := TRAIN | EVAL | PREDICT.

#[export] Instance ModeKeys_eq_dec : EqDecision ModeKeys.
Proof. solve_decision. Defined.

(** The activation functions the notebook names. *)
Inductive Activation : Type := relu | sigmoid.

Inductive DType : Type := float32 | float64 | np_int.

(** The objects TensorFlow hands back are opaque to the Python code. *)
Class TFHandles : Type := {
  Tensor : Type;
  Optimizer : Type;
  Operation : Type;
  Metric : Type;
}.

(** [tf.estimator.EstimatorSpec] is a named tuple; a keyword that is not
    passed defaults to [None]. *)
Record EstimatorSpec `{TFHandles} : Type := {
  mode : ModeKeys;
  predictions : option (gmap string Tensor);
  loss : option Tensor;
  train_op : option Operation;
  eval_metric_ops : option (gmap string Metric);
}.

(** The TensorFlow calls of [model_fn].  [labels] is a Python value that is a
    tensor or [None].  [EstimatorSpec_new] is the validation that the
    constructor of the named tuple makes of its keyword arguments, which can
    raise; a keyword that is not passed is [None]. *)
Inductive tfE `{TFHandles} : Type -> Type :=
| layers_dense (inputs : Tensor) (units : nat)
    (activation : option Activation) : tfE Tensor
| reshape (tensor : Tensor) (shape : list Z) : tfE Tensor
| losses_mean_squared_error (labels : option Tensor)
    (predictions : Tensor) : tfE Tensor
| cast (x : option Tensor) (dtype : DType) : tfE Tensor
| metrics_root_mean_squared_error (labels predictions : Tensor) : tfE Metric
| train_GradientDescentOptimizer (learning_rate : float) : tfE Optimizer
| train_get_global_step : tfE (option Tensor)
| minimize (optimizer : Optimizer) (loss : Tensor)
    (global_step : option Tensor) : tfE Operation
| EstimatorSpec_new (kwargs : EstimatorSpec) : tfE unit.

(** The named tuple that [EstimatorSpec.__new__] of TensorFlow 1.9 builds from
    keyword arguments it accepts: [predictions] and [eval_metric_ops] that are
    [None] become the empty dict, the other fields are kept. *)
Definition constructed `{TFHandles} (kwargs : EstimatorSpec) : EstimatorSpec :=
  {| mode := mode kwargs;
     predictions := Some (default ∅ (predictions kwargs));
     loss := loss kwargs;
     train_op := train_op kwargs;
     eval_metric_ops := Some (default ∅ (eval_metric_ops kwargs)) |}.

(** [tf.estimator.EstimatorSpec(...)] on keyword arguments. *)
Definition estimator_spec `{TFHandles} (kwargs : EstimatorSpec)
  : prog tfE EstimatorSpec :=
  call (EstimatorSpec_new kwargs);; mret (constructed kwargs).

(** The complete [model_fn] of the notebook. *)
Definition model_fn `{TFHandles} (features : gmap string Tensor)
    (labels : option Tensor) (mode : ModeKeys) (params : gmap string float)
  : prog tfE EstimatorSpec :=
  x ← getitem features "x";
  first_hidden_layer ← call (layers_dense x 10 (Some relu));
  second_hidden_layer ← call (layers_dense first_hidden_layer 10 (Some relu));
  output_layer ← call (layers_dense second_hidden_layer 1 None);
  predictions ← call (reshape output_layer [-1]);
  if decide (mode = PREDICT) then
    estimator_spec
      {| mode := mode;
         predictions := Some {[ "ages" := predictions ]};
         loss := None; train_op := None; eval_metric_ops := None |}
  else
    loss ← call (losses_mean_squared_error labels predictions);
    labels64 ← call (cast labels float64);
    rmse ← call (metrics_root_mean_squared_error labels64 predictions);
    let eval_metric_ops : gmap string Metric := {[ "rmse" := rmse ]} in
    learning_rate ← getitem params "learning_rate";
    optimizer ← call (train_GradientDescentOptimizer learning_rate);
    global_step ← call train_get_global_step;
    train_op ← call (minimize optimizer loss global_step);
    estimator_spec
      {| mode := mode;
         predictions := None;
         loss := Some loss;
         train_op := Some train_op;
         eval_metric_ops := Some eval_metric_ops |}.

(** ** A reference TensorFlow: the graph that the calls build

    TensorFlow is not code of the notebook; the theorems on [model_fn] hold for
    every handler.  This module is one handler, after TensorFlow 1.9 in graph
    mode: every call adds a node to the graph and returns a handle on it,
    after checking the static shapes of its arguments and, for the metric,
    their dtypes.  It is the instance on which [model_fn] is run on concrete
    inputs. *)
Module Graph.

Inductive node : Type :=
| Input (name : string) (shape : list nat) (dtype : DType)
| Dense (inputs : node) (units : nat) (activation : option Activation)
| Reshape (tensor : node) (shape : list Z)
| MeanSquaredError (labels predictions : node)
| Cast (x : node) (dtype : DType)
| GlobalStep.

Inductive optimizer : Type :=
| GradientDescent (learning_rate : float).

Inductive operation : Type :=
| Minimize (opt : optimizer) (loss : node) (global_step : option node).

Inductive metric : Type :=
| RootMeanSquaredError (labels predictions : node).

#[export] Instance DType_eq_dec : EqDecision DType.
Proof. solve_decision. Defined.

Definition num_elements (shape : list nat) : nat := foldr Nat.mul 1%nat shape.

(** The shape [tf.reshape] gives a tensor of [total] elements: at most one
    dimension is [-1] and is inferred from the others. *)
Definition reshape_shape (total : nat) (spec : list Z) : option (list nat) :=
  if forallb (fun d => (-1 <=? d)%Z) spec then
    let known := Z.to_nat <$> filter (fun d => d ≠ -1) spec in
    let p := num_elements known in
    match length (filter (fun d => d = -1) spec) with
    | O => if decide (p = total) then Some (Z.to_nat <$> spec) else None
    | S O =>
        if decide (p ≠ 0%nat ∧ (total mod p = 0)%nat) then
          Some ((fun d => if decide (d = -1) then (total / p)%nat
                          else Z.to_nat d) <$> spec)
        else None
    | _ => None
    end
  else None.

(** Static shape inference; [None] when the node is ill-shaped.  A dense
    layer wants an input of rank at least two and replaces its last
    dimension by [units]; the losses want equal shapes and reduce to a
    scalar. *)
Fixpoint shape_of (t : node) : option (list nat) :=
  match t with
  | Input _ shape _ => Some shape
  | Dense inputs units _ =>
      sh ← shape_of inputs;
      if decide (2 ≤ length sh)%nat then Some (removelast sh ++ [units])%list
      else None
  | Reshape tensor spec =>
      sh ← shape_of tensor;
      reshape_shape (num_elements sh) spec
  | MeanSquaredError labels predictions =>
      sl ← shape_of labels;
      sp ← shape_of predictions;
      if decide (sl = sp) then Some [] else None
  | Cast x _ => shape_of x
  | GlobalStep => Some []
  end.

(** The dtype of a node: a layer and a reshape keep the dtype of their input,
    [tf.losses.mean_squared_error] computes in float32.  The dtype is checked
    where [model_fn] can mix two of them, in the metric; that the input of a
    layer is floating point is not checked. *)
Fixpoint dtype_of (t : node) : DType :=
  match t with
  | Input _ _ dtype => dtype
  | Dense inputs _ _ => dtype_of inputs
  | Reshape tensor _ => dtype_of tensor
  | MeanSquaredError _ _ => float32
  | Cast _ dtype => dtype
  | GlobalStep => np_int
  end.

#[global] Instance handles : TFHandles := {|
  Tensor := node;
  Optimizer := optimizer;
  Operation := operation;
  Metric := metric;
|}.

Definition value_error {A} (msg : string) : result A :=
  Err (Raised "ValueError" msg).

Definition checked (t : node) : result node :=
  match shape_of t with
  | Some _ => Ok t
  | None => value_error "incompatible shapes"
  end.

(** The checks of [EstimatorSpec.__new__]. *)
Definition check_spec (spec : EstimatorSpec) : result unit :=
  match mode spec with
  | PREDICT =>
      if predictions spec is None then value_error "Missing predictions."
      else Ok ()
  | m =>
      match loss spec with
      | None => value_error "Missing loss."
      | Some l =>
          if decide (shape_of l = Some []) then
            if decide (m = TRAIN ∧ train_op spec = None)
            then value_error "Missing train_op."
            else Ok ()
          else value_error "Loss must be scalar."
      end
  end.

Definition answer {X} (ev : tfE X) : result X :=
  match ev in tfE X return result X with
  | layers_dense inputs units activation =>
      checked (Dense inputs units activation)
  | reshape tensor shape => checked (Reshape tensor shape)
  | losses_mean_squared_error None _ =>
      value_error "labels must not be None."
  | losses_mean_squared_error (Some labels) predictions =>
      checked (MeanSquaredError labels predictions)
  | cast None _ => value_error "None values not supported."
  | cast (Some x) dtype => checked (Cast x dtype)
  | metrics_root_mean_squared_error labels predictions =>
      if decide (dtype_of labels = dtype_of predictions) then
        match checked (MeanSquaredError labels predictions) with
        | Ok _ => Ok (RootMeanSquaredError labels predictions)
        | Err e => Err e
        end
      else Err (Raised "TypeError" "labels and predictions differ in dtype")
  | train_GradientDescentOptimizer learning_rate =>
      Ok (GradientDescent learning_rate)
  | train_get_global_step => Ok (Some GlobalStep)
  | minimize opt loss global_step => Ok (Minimize opt loss global_step)
  | EstimatorSpec_new spec => check_spec spec
  end.

(** The state is the number of nodes in the graph. *)
Definition tf : handler tfE nat :=
  fun X ev n => (answer ev, if is_ok (answer ev) then S n else n).

Definition shape (t : node) : list nat := default [] (shape_of t).

(** A batch of three abalones, their ring counts, and the network that
    [model_fn] builds over the batch. *)
Definition sample_x : node := Input "x" [3; 7]%nat float32.
Definition sample_labels : node := Input "y" [3]%nat np_int.
Definition sample_ages : node :=
  Reshape
    (Dense (Dense (Dense sample_x 10 (Some relu)) 10 (Some relu)) 1 None)
    [-1].
Definition sample_loss : node := MeanSquaredError sample_labels sample_ages.

(** The same batch in float64, the dtype that the metric of [model_fn] wants
    of the predictions. *)
Definition sample_x64 : node := Input "x" [3; 7]%nat float64.
Definition sample_ages64 : node :=
  Reshape
    (Dense (Dense (Dense sample_x64 10 (Some relu)) 10 (Some relu)) 1 None)
    [-1].
Definition sample_loss64 : node :=
  MeanSquaredError sample_labels sample_ages64.

End Graph.

(** ** The notebook's code cells *)

(** The objects of the SageMaker SDK, NumPy and TensorFlow that the cells
    hold.  A predictor has an [endpoint] attribute; a CSV field is text, which
    NumPy converts to the requested dtype. *)
Class CloudHandles : Type := {
  Session : Type;
  Estimator : Type;
  Predictor : Type;
  endpoint : Predictor -> string;
  np_float32 : Type;
  np_float32_of : string -> np_float32;
  np_int_of : string -> Z;
  TensorProto : Type;
  Response : Type;
}.

(** The keyword arguments of the [TensorFlow] estimator in cell 17. *)
Record TensorFlowArgs : Type := {
  entry_point : string;
  role : string;
  framework_version : string;
  training_steps : Z;
  evaluation_steps : Z;
  hyperparameters : gmap string float;
  train_instance_count : Z;
  train_instance_type : string;
}.

(** The [Dataset(data, target)] named tuple of [tf.contrib.learn]. *)
Record Dataset `{CloudHandles} : Type := {
  data : list (list np_float32);
  target : list Z;
}.

(** The external calls of the code cells.  [shell] is an IPython [!command];
    its exit status is not inspected. *)
Inductive nbE `{CloudHandles} : Type -> Type :=
| sagemaker_Session : nbE Session
| get_execution_role : nbE string
| upload_data (session : Session) (path key_prefix : string) : nbE string
| shell (command : string) : nbE Z
| TensorFlow (args : TensorFlowArgs) : nbE Estimator
| fit (estimator : Estimator) (inputs : string) : nbE unit
| deploy (estimator : Estimator) (initial_instance_count : Z)
    (instance_type : string) : nbE Predictor
| load_csv_without_header (filename : string)
    (target_dtype features_dtype : DType) : nbE Dataset
| make_tensor_proto (values : list np_float32) (shape : list Z)
    (dtype : DType) : nbE TensorProto
| predict (predictor : Predictor) (request : TensorProto) : nbE Response
| delete_endpoint (session : Session) (endpoint_name : string) : nbE unit.

(** [os.path.join(a, *p)] of [posixpath]. *)
Definition ends_with_slash (path : string) : bool :=
  match last (String.list_ascii_of_string path) with
  | Some c => bool_decide (c = "/"%char)
  | None => false
  end.

Definition os_path_join (a : string) (p : list string) : string :=
  foldl (fun path b =>
           if String.prefix "/" b then b
           else if bool_decide (path = "") || ends_with_slash path
                then path +:+ b
                else path +:+ "/" +:+ b) a p.

(** [np.asarray] of what is an array already. *)
Definition np_asarray {A} (a : list A) : list A := a.

Section Notebook.
Context `{CloudHandles}.

Definition cell_3 : prog nbE (Session * string) :=
  sagemaker_session ← call sagemaker_Session;
  role ← call get_execution_role;
  mret (sagemaker_session, role).

Definition cell_5 (sagemaker_session : Session) : prog nbE string :=
  call (upload_data sagemaker_session "data" "data/DEMO-abalone").

Definition cell_8 : prog nbE Z :=
  call (shell "cat 'abalone.py'").

Definition cell_17 (role inputs : string) : prog nbE Estimator :=
  abalone_estimator ← call (TensorFlow
    {| entry_point := "abalone.py";
       role := role;
       framework_version := "1.9";
       training_steps := 100;
       evaluation_steps := 100;
       hyperparameters := {[ "learning_rate" := 0.001%float ]};
       train_instance_count := 1;
       train_instance_type := "ml.c4.xlarge" |});
  call (fit abalone_estimator inputs);;
  mret abalone_estimator.

Definition cell_20 (abalone_estimator : Estimator) : prog nbE Predictor :=
  call (deploy abalone_estimator 1 "ml.m4.xlarge").

Definition cell_23 : prog nbE TensorProto :=
  prediction_set ← call (load_csv_without_header
    (os_path_join "data/abalone_predict.csv" []) np_int float32);
  data ← getindex (data prediction_set) 0;
  call (make_tensor_proto (np_asarray data)
          [1; Z.of_nat (length data)] float32).

Definition cell_24 (abalone_predictor : Predictor)
    (tensor_proto : TensorProto) : prog nbE Response :=
  call (predict abalone_predictor tensor_proto).

Definition cell_26 (abalone_predictor : Predictor) : prog nbE unit :=
  session ← call sagemaker_Session;
  call (delete_endpoint session (endpoint abalone_predictor)).

(** The cells run from top to bottom; an exception stops the run. *)
Definition notebook : prog nbE Response :=
  '(sagemaker_session, role) ← cell_3;
  inputs ← cell_5 sagemaker_session;
  cell_8;;
  abalone_estimator ← cell_17 role inputs;
  abalone_predictor ← cell_20 abalone_estimator;
  tensor_proto ← cell_23;
  response ← cell_24 abalone_predictor tensor_proto;
  cell_26 abalone_predictor;;
  mret response.

(** What [load_csv_without_header] of [tf.contrib.learn] makes of the rows of
    a CSV file (it pops column [-1] of each row as the target): the last field
    of a row is its target, the fields before it are its features. *)
Definition dataset_of_rows (rows : list (list string)) : Dataset :=
  {| data := (fun row => np_float32_of <$> removelast row) <$> rows;
     target := (fun row => np_int_of (List.last row "")) <$> rows |}.

End Notebook.

(** ** The calls a run of [model_fn] is expected to make

    The network of the notebook's text: the input layer [x], two dense hidden
    layers of ten units with ReLU activation, a dense output layer of one unit
    with no activation, reshaped to one dimension. *)
Definition network_calls `{TFHandles} (x h1 h2 out preds : Tensor)
  : list (entry tfE) :=
  [ Entry (layers_dense x 10 (Some relu)) (Ok h1);
    Entry (layers_dense h1 10 (Some relu)) (Ok h2);
    Entry (layers_dense h2 1 None) (Ok out);
    Entry (reshape out [-1]) (Ok preds) ].

(** The loss and its metric, up to the point where the hyperparameters are
    read. *)
Definition loss_calls `{TFHandles} (labels : option Tensor)
    (preds loss labels64 : Tensor) (rmse : Metric) : list (entry tfE) :=
  [ Entry (losses_mean_squared_error labels preds) (Ok loss);
    Entry (cast labels float64) (Ok labels64);
    Entry (metrics_root_mean_squared_error labels64 preds) (Ok rmse) ].

(** One gradient-descent step on the loss. *)
Definition train_calls `{TFHandles} (learning_rate : float)
    (loss : Tensor) (opt : Optimizer) (global_step : option Tensor)
    (op : Operation) : list (entry tfE) :=
  [ Entry (train_GradientDescentOptimizer learning_rate) (Ok opt);
    Entry train_get_global_step (Ok global_step);
    Entry (minimize opt loss global_step) (Ok op) ].

(** The keyword arguments of the two [EstimatorSpec] calls of [model_fn]. *)
Definition predict_spec `{TFHandles} (preds : Tensor) : EstimatorSpec :=
  {| mode := PREDICT;
     predictions := Some {[ "ages" := preds ]};
     loss := None; train_op := None; eval_metric_ops := None |}.

Definition train_spec `{TFHandles} (m : ModeKeys) (loss : Tensor)
    (op : Operation) (rmse : Metric) : EstimatorSpec :=
  {| mode := m;
     predictions := None;
     loss := Some loss;
     train_op := Some op;
     eval_metric_ops := Some {[ "rmse" := rmse ]} |}.

(** The calls of the loss computation, the only ones that are given [labels]. *)
Definition loss_call `{TFHandles} (c : sigT tfE) : bool :=
  match projT2 c with
  | losses_mean_squared_error _ _ | cast _ _
  | metrics_root_mean_squared_error _ _ => true
  | _ => false
  end.

(** "Bundles predictions, loss, a training step and evaluation metrics". *)
Definition bundles_all_four `{TFHandles} (spec : EstimatorSpec) : Prop :=
  is_Some (predictions spec) ∧ is_Some (loss spec) ∧
  is_Some (train_op spec) ∧ is_Some (eval_metric_ops spec).

(** The shape contract of the two calls that decide the shape of the
    predictions: a dense layer replaces the last dimension of its input by
    its number of units, and a reshape to [[-1]] flattens. *)
Class ShapeLaws `{TFHandles} {St : Type} (h : handler tfE St)
    (shape : Tensor -> list nat) : Prop := {
  dense_shape inputs units activation t :
    answered h (Entry (layers_dense inputs units activation) (Ok t)) ->
    shape t = removelast (shape inputs) ++ [units];
  reshape_flat tensor t :
    answered h (Entry (reshape tensor [-1]) (Ok t)) ->
    shape t = [Graph.num_elements (shape tensor)];
}.

(** ** The steps of the notebook *)

Inductive step : Type :=
| SSession | SRole | SUpload | SShell | SEstimator | SFit | SDeploy
| SLoadCsv | SMakeProto | SPredict | SDelete.

#[export] Instance step_eq_dec : EqDecision step.
Proof. solve_decision. Defined.

Definition step_of `{CloudHandles} (c : sigT nbE) : step :=
  match projT2 c with
  | sagemaker_Session => SSession
  | get_execution_role => SRole
  | upload_data _ _ _ => SUpload
  | shell _ => SShell
  | TensorFlow _ => SEstimator
  | fit _ _ => SFit
  | deploy _ _ _ => SDeploy
  | load_csv_without_header _ _ _ => SLoadCsv
  | make_tensor_proto _ _ _ => SMakeProto
  | predict _ _ => SPredict
  | delete_endpoint _ _ => SDelete
  end.

(** The external calls of the cells, in the order of the cells. *)
Definition script : list step :=
  [ SSession; SRole; SUpload; SShell; SEstimator; SFit; SDeploy;
    SLoadCsv; SMakeProto; SPredict; SSession; SDelete ].

(** The steps of the training and hosting pipeline. *)
Definition pipeline_step (st : step) : bool :=
  match st with
  | SUpload | SFit | SDeploy | SPredict | SDelete => true
  | _ => false
  end.

Definition pipeline : list step := [ SUpload; SFit; SDeploy; SPredict; SDelete ].

Definition steps `{CloudHandles} (l : list (sigT nbE)) : list step :=
  step_of <$> l.

(** The keyword arguments of a call, when it is the estimator's constructor. *)
Definition estimator_args `{CloudHandles} (c : sigT nbE)
  : option TensorFlowArgs :=
  match projT2 c with
  | TensorFlow args => Some args
  | _ => None
  end.

Definition abalone_estimator_args (role : string) : TensorFlowArgs :=
  {| entry_point := "abalone.py";
     role := role;
     framework_version := "1.9";
     training_steps := 100;
     evaluation_steps := 100;
     hyperparameters := {[ "learning_rate" := 0.001%float ]};
     train_instance_count := 1;
     train_instance_type := "ml.c4.xlarge" |}.

(** The log of a complete run of the notebook, given the answers. *)
Definition notebook_calls `{CloudHandles} (session : Session)
    (role inputs : string) (status : Z) (estimator : Estimator)
    (predictor : Predictor) (prediction_set : Dataset)
    (row : list np_float32) (tensor_proto : TensorProto)
    (response : Response) (session' : Session) : list (entry nbE) :=
  [ Entry sagemaker_Session (Ok session);
    Entry get_execution_role (Ok role);
    Entry (upload_data session "data" "data/DEMO-abalone") (Ok inputs);
    Entry (shell "cat 'abalone.py'") (Ok status);
    Entry (TensorFlow (abalone_estimator_args role)) (Ok estimator);
    Entry (fit estimator inputs) (Ok ());
    Entry (deploy estimator 1 "ml.m4.xlarge") (Ok predictor);
    Entry (load_csv_without_header "data/abalone_predict.csv" np_int float32)
          (Ok prediction_set);
    Entry (make_tensor_proto row [1; Z.of_nat (length row)] float32)
          (Ok tensor_proto);
    Entry (predict predictor tensor_proto) (Ok response);
    Entry sagemaker_Session (Ok session');
    Entry (delete_endpoint session' (endpoint predictor)) (Ok ()) ].

(** ** A simulated service

    A stand-in for SageMaker, NumPy and the file system, used to run the
    notebook on concrete data.  It enforces the life cycle of the service:
    training wants the uploaded data, deployment a trained model, and
    invocation and deletion a live endpoint. *)
Module Sim.

Record tensor_proto : Type := {
  values : list string;
  shape : list Z;
  dtype : DType;
}.

(** The decimal digits of an integer field. *)
Definition digit (c : ascii) : Z := Z.of_N (N_of_ascii c) - 48.

Definition digits_value (cs : list ascii) : Z :=
  foldl (fun n c => 10 * n + digit c) 0 cs.

Fixpoint lstrip (cs : list ascii) : list ascii :=
  match cs with
  | c :: cs' => if bool_decide (c = " "%char) then lstrip cs' else cs
  | [] => []
  end.

Definition strip (cs : list ascii) : list ascii :=
  rev (lstrip (rev (lstrip cs))).

(** [int(s)] on the text of an integer: blanks around it and a sign before
    the digits are allowed. *)
Definition int_of_string (s : string) : Z :=
  match strip (String.list_ascii_of_string s) with
  | c :: cs =>
      if bool_decide (c = "-"%char) then - digits_value cs
      else if bool_decide (c = "+"%char) then digits_value cs
      else digits_value (c :: cs)
  | [] => 0
  end.

#[global] Instance handles : CloudHandles := {|
  Session := unit;
  Estimator := TensorFlowArgs;
  Predictor := string;
  endpoint := fun name => name;
  np_float32 := string;
  np_float32_of := fun field => field;
  np_int_of := int_of_string;
  TensorProto := tensor_proto;
  Response := list string;
|}.

Record account : Type := {
  uploaded : list string;
  trained : bool;
  endpoints : list string;
}.

Definition fresh : account :=
  {| uploaded := []; trained := false; endpoints := [] |}.

(** Modelled from the spec: the file [data/abalone_predict.csv] is not among
    the sources.  A stand-in with the columns of the notebook's table: the
    seven measurements of the feature vector, then the label, the number of
    rings. *)
Definition abalone_predict_csv : list (list string) :=
  [ [ "0.295"; "0.225"; "0.08"; "0.124"; "0.0485"; "0.032"; "0.04"; "9" ];
    [ "0.475"; "0.365"; "0.115"; "0.499"; "0.232"; "0.0885"; "0.156"; "10" ] ].

Definition client_error {A} (msg : string) : result A :=
  Err (Raised "ClientError" msg).

Definition service : handler nbE account :=
  fun X ev acc =>
    match ev in nbE X return result X * account with
    | sagemaker_Session => (Ok (), acc)
    | get_execution_role => (Ok "arn:aws:iam::012345678901:role/SageMaker", acc)
    | upload_data _ path key_prefix =>
        let uri := "s3://sagemaker-us-west-2-012345678901/" +:+ key_prefix in
        (Ok uri, {| uploaded := uri :: uploaded acc;
                    trained := trained acc; endpoints := endpoints acc |})
    | shell _ => (Ok 0, acc)
    | TensorFlow args => (Ok args, acc)
    | fit _ inputs =>
        if bool_decide (inputs ∈ uploaded acc) then
          (Ok (), {| uploaded := uploaded acc; trained := true;
                     endpoints := endpoints acc |})
        else (client_error "no such training data", acc)
    | deploy _ _ _ =>
        if trained acc then
          (Ok "abalone-endpoint",
           {| uploaded := uploaded acc; trained := trained acc;
              endpoints := "abalone-endpoint" :: endpoints acc |})
        else (client_error "no model to deploy", acc)
    | load_csv_without_header filename _ _ =>
        if bool_decide (filename = "data/abalone_predict.csv") then
          (Ok (dataset_of_rows abalone_predict_csv), acc)
        else (Err (Raised "NotFoundError" filename), acc)
    | make_tensor_proto values shape dtype =>
        if bool_decide (foldr Z.mul 1 shape = Z.of_nat (length values)) then
          (Ok {| values := values; shape := shape; dtype := dtype |}, acc)
        else (Err (Raised "ValueError" "shape does not fit the values"), acc)
    | predict name request =>
        if bool_decide (name ∈ endpoints acc) then
          (Ok (replicate (Z.to_nat (default 0 (head (shape request)))) "9.5"),
           acc)
        else (client_error "no such endpoint", acc)
    | delete_endpoint _ name =>
        if bool_decide (name ∈ endpoints acc) then
          (Ok (), {| uploaded := uploaded acc; trained := trained acc;
                     endpoints := filter (fun n => n ≠ name) (endpoints acc) |})
        else (client_error "no such endpoint", acc)
    end.

End Sim.

(** ** Further vocabulary for runs *)

(** A call, without its answer. *)
Definition ev_of {E : Type -> Type} {X : Type} (ev : E X) : sigT E :=
  existT X ev.

(** The calls that build the training step. *)
Definition train_call `{TFHandles} (c : sigT tfE) : bool :=
  match projT2 c with
  | train_GradientDescentOptimizer _ | train_get_global_step
  | minimize _ _ _ => true
  | _ => false
  end.

(** The simulated service, with [rows] as the content of the prediction
    file. *)
Definition serving (rows : list (list string)) : handler nbE Sim.account :=
  fun X ev acc =>
    match ev in nbE X return result X * Sim.account with
    | load_csv_without_header _ _ _ => (Ok (dataset_of_rows rows), acc)
    | ev' => Sim.service _ ev' acc
    end.

(** * Properties *)

(** ** The definitions on concrete values *)

Example os_path_join_one : os_path_join "data/abalone_predict.csv" []
                           = "data/abalone_predict.csv".
Proof. reflexivity. Qed.

Example os_path_join_two : os_path_join "data" ["abalone.csv"]
                           = "data/abalone.csv"
                           ∧ os_path_join "data/" ["abalone.csv"]
                             = "data/abalone.csv"
                           ∧ os_path_join "data" ["/tmp"; "abalone.csv"]
                             = "/tmp/abalone.csv".
Proof. repeat split. Qed.

Example reshape_shape_infers :
  Graph.reshape_shape 6 [2; -1] = Some [2; 3]%nat
  ∧ Graph.reshape_shape 6 [4; -1] = None
  ∧ Graph.reshape_shape 6 [-1; -1] = None
  ∧ Graph.reshape_shape 6 [3; 2] = Some [3; 2]%nat.
Proof. repeat split. Qed.

Example sample_shapes :
  Graph.shape_of Graph.sample_ages = Some [3%nat]
  ∧ Graph.shape_of Graph.sample_loss = Some [].
Proof. split; reflexivity. Qed.

Example dense_wants_rank_two :
  Graph.shape_of (Graph.Dense (Graph.Input "x" [7%nat] float32) 10 None) = None.
Proof. reflexivity. Qed.

Example int_of_string_rings :
  Sim.int_of_string "10" = 10 ∧ Sim.int_of_string "-3" = -3
  ∧ Sim.int_of_string " 7" = 7 ∧ Sim.int_of_string "+12 " = 12.
Proof. repeat split. Qed.

Example metric_wants_equal_dtypes :
  Graph.answer (metrics_root_mean_squared_error
                  (Graph.Cast Graph.sample_labels float64) Graph.sample_ages)
    = Err (Raised "TypeError" "labels and predictions differ in dtype")
  ∧ Graph.answer (metrics_root_mean_squared_error
                    (Graph.Cast Graph.sample_labels float64)
                    Graph.sample_ages64)
    = Ok (Graph.RootMeanSquaredError
            (Graph.Cast Graph.sample_labels float64) Graph.sample_ages64).
Proof. split; reflexivity. Qed.

(** ** Runs of any program *)

Section Exec.
Context {E : Type -> Type} {St : Type} (h : handler E St).

Lemma exec_bind {A B} (p : prog E A) (f : A -> prog E B) (s : St) :
  exec h (bind p f) s =
  match exec h p s with
  | (Ok a, s', l) =>
      let '(r, s'', l') := exec h (f a) s' in (r, s'', l ++ l')
  | (Err e, s', l) => (Err e, s', l)
  end.
Proof.
  revert s. induction p as [a|e|X ev k IH]; intros s; simpl.
  - by destruct (exec h (f a) s) as [[r s'] l].
  - done.
  - destruct (h X ev s) as [[x|e] s1]; [|done].
    rewrite IH. destruct (exec h (k x) s1) as [[[a|e] s2] l]; [|done].
    by destruct (exec h (f a) s2) as [[r s3] l'].
Qed.

(** A call that raised is the last call of the run, and the run ends with
    its exception. *)
Lemma log_raised {A} (p : prog E A) (s : St) (ent : entry E) (e : exn) :
  ent ∈ log h p s -> raised ent = Some e ->
  run h p s = Err e ∧ last (log h p s) = Some ent.
Proof.
  unfold log, run. revert s.
  induction p as [a|e'|X ev k IH]; intros s; simpl.
  - by intros ?%elem_of_nil.
  - by intros ?%elem_of_nil.
  - destruct (h X ev s) as [[x|e'] s1].
    + specialize (IH x s1).
      destruct (exec h (k x) s1) as [[r s2] l]; simpl in *.
      intros [->|Hin]%elem_of_cons Hr; [done|].
      destruct (IH Hin Hr) as [-> Hl]. split; [done|].
      destruct l; [done|]. done.
    + simpl. intros ->%list_elem_of_singleton [= ->]. done.
Qed.

(** Every entry of the log is an answer of the handler. *)
Lemma log_answered {A} (p : prog E A) (s : St) (ent : entry E) :
  ent ∈ log h p s -> answered h ent.
Proof.
  unfold log. revert s.
  induction p as [a|e'|X ev k IH]; intros s; simpl.
  - by intros ?%elem_of_nil.
  - by intros ?%elem_of_nil.
  - destruct (h X ev s) as [[x|e'] s1] eqn:Hh.
    + specialize (IH x s1).
      destruct (exec h (k x) s1) as [[r s2] l]; simpl in *.
      intros [->|Hin]%elem_of_cons; [|by apply IH].
      exists s. by rewrite Hh.
    + simpl. intros ->%list_elem_of_singleton. exists s. by rewrite Hh.
Qed.

(** A run that returns made only calls that returned. *)
Lemma run_ok_log {A} (p : prog E A) (s : St) (a : A) :
  run h p s = Ok a -> Forall (fun ent => raised ent = None) (log h p s).
Proof.
  intros Hrun. apply Forall_forall. intros ent Hin.
  destruct (raised ent) as [e|] eqn:Hr; [|done].
  destruct (log_raised p s ent e Hin Hr) as [Hrun' _]. congruence.
Qed.

End Exec.

(** Case analysis on the answer of the next call to the handler [h]. *)
Ltac answer h :=
  match goal with
  | |- context [h ?X ?ev ?s] =>
      let a := fresh "a" in let e := fresh "e" in
      let s' := fresh "s" in let Hh := fresh "Hh" in
      destruct (h X ev s) as [[a|e] s'] eqn:Hh; simpl
  end.

(** Find an entry in an explicit log. *)
Ltac find_entry :=
  solve [repeat first [apply list_elem_of_here | apply list_elem_of_further]].

(** Case analysis on the membership [Hin] of an entry in an explicit log,
    keeping the entries whose step agrees with [Hstep]. *)
Ltac pick_entry Hin Hstep :=
  repeat match goal with u : unit |- _ => destruct u end;
  repeat (apply elem_of_cons in Hin as [->|Hin]);
  try (by apply elem_of_nil in Hin);
  simpl in Hstep; try discriminate Hstep.

(** ** Runs of [model_fn] *)

Section ModelFn.
Context `{TFHandles} {St : Type} (h : handler tfE St).

Lemma model_fn_predict_inv features labels params s spec :
  run h (model_fn features labels PREDICT params) s = Ok spec ->
  ∃ x h1 h2 out preds,
    features !! "x" = Some x ∧
    spec = constructed (predict_spec preds) ∧
    log h (model_fn features labels PREDICT params) s =
      network_calls x h1 h2 out preds
        ++ [Entry (EstimatorSpec_new (predict_spec preds)) (Ok ())].
Proof.
  unfold run, log, model_fn, getitem.
  destruct (features !! "x") as [x|]; simpl; [|discriminate].
  do 5 (answer h; try discriminate). intros [= <-]. destruct a3.
  by eexists x, a, a0, a1, a2.
Qed.

Lemma model_fn_train_inv features labels m params s spec :
  m ≠ PREDICT ->
  run h (model_fn features labels m params) s = Ok spec ->
  ∃ x h1 h2 out preds lo labels64 rmse lr opt gs op,
    features !! "x" = Some x ∧
    params !! "learning_rate" = Some lr ∧
    spec = constructed (train_spec m lo op rmse) ∧
    log h (model_fn features labels m params) s =
      network_calls x h1 h2 out preds
        ++ loss_calls labels preds lo labels64 rmse
        ++ train_calls lr lo opt gs op
        ++ [Entry (EstimatorSpec_new (train_spec m lo op rmse)) (Ok ())].
Proof.
  intros Hm. unfold run, log, model_fn, getitem.
  destruct (features !! "x") as [x|]; simpl; [|discriminate].
  do 4 (answer h; try discriminate).
  destruct (decide (m = PREDICT)) as [|_]; [done|]. simpl.
  do 3 (answer h; try discriminate).
  destruct (params !! "learning_rate") as [lr|]; simpl; [|discriminate].
  do 4 (answer h; try discriminate). intros [= <-]. destruct a9.
  by eexists x, a, a0, a1, a2, a3, a4, a5, lr, a6, a7, a8.
Qed.

(** Every failure of [model_fn] is the exception of the last call it made,
    or the [KeyError] of one of its two subscripts. *)
Lemma model_fn_failure_origin features labels m params s e :
  run h (model_fn features labels m params) s = Err e ->
  (∃ ent, last (log h (model_fn features labels m params) s) = Some ent
          ∧ raised ent = Some e)
  ∨ (e = KeyError "x" ∧ features !! "x" = None)
  ∨ (e = KeyError "learning_rate" ∧ params !! "learning_rate" = None
     ∧ m ≠ PREDICT).
Proof.
  unfold run, log, model_fn, getitem.
  destruct (features !! "x") as [x|]; simpl;
    [|intros [= <-]; right; left; done].
  do 4 (answer h; [|intros [= <-]; left; eexists; done]).
  destruct (decide (m = PREDICT)) as [|Hm]; simpl.
  { answer h; [discriminate|intros [= <-]; left; eexists; done]. }
  do 3 (answer h; [|intros [= <-]; left; eexists; done]).
  destruct (params !! "learning_rate") as [lr|]; simpl;
    [|intros [= <-]; right; right; done].
  do 3 (answer h; [|intros [= <-]; left; eexists; done]).
  answer h; [discriminate|intros [= <-]; left; eexists; done].
Qed.

End ModelFn.

(** Outside PREDICT mode the returned bundle has no predictions: the second
    [EstimatorSpec] of [model_fn] is not given the keyword, and the
    constructor puts the empty dict in its place. *)
Lemma model_fn_train_has_no_predictions `{TFHandles} {St : Type}
    (h : handler tfE St) features labels m params s spec :
  m ≠ PREDICT ->
  run h (model_fn features labels m params) s = Ok spec ->
  predictions spec = Some ∅.
Proof.
  intros Hm Hrun.
  apply model_fn_train_inv in Hrun
    as (x & h1 & h2 & out & preds & lo & l64 & rmse & lr & opt & gs & op
        & _ & _ & -> & _); done.
Qed.

(** C1, as amended.  The bundle that [model_fn] returns depends on the mode.
    In PREDICT mode the [EstimatorSpec] carries the mode and the predictions,
    the dict [{"ages": ...}]; its loss and its training step are [None] and its
    evaluation metrics are the empty dict that the constructor puts for the
    keyword that was not passed.  In TRAIN and EVAL modes it carries the mode,
    the loss, the training step and the evaluation metrics, the dict
    [{"rmse": ...}]. *)
Theorem model_fn_bundle `{TFHandles} {St : Type} (h : handler tfE St)
    features labels m params s spec :
  run h (model_fn features labels m params) s = Ok spec ->
  mode spec = m ∧
  if decide (m = PREDICT)
  then (∃ preds, predictions spec = Some {[ "ages" := preds ]})
       ∧ loss spec = None ∧ train_op spec = None
       ∧ eval_metric_ops spec = Some ∅
  else is_Some (loss spec) ∧ is_Some (train_op spec)
       ∧ ∃ rmse, eval_metric_ops spec = Some {[ "rmse" := rmse ]}.
Proof.
  intros Hrun. destruct (decide (m = PREDICT)) as [->|Hm].
  - apply model_fn_predict_inv in Hrun
      as (x & h1 & h2 & out & preds & _ & -> & _).
    simpl. eauto 10.
  - apply model_fn_train_inv in Hrun
      as (x & h1 & h2 & out & preds & lo & l64 & rmse & lr & opt & gs & op
          & _ & _ & -> & _); [|done].
    simpl. eauto 10.
Qed.

Lemma model_fn_bundle_witness :
  (∃ spec : @EstimatorSpec Graph.handles,
     run Graph.tf
       (model_fn {[ "x" := Graph.sample_x64 ]} (Some Graph.sample_labels)
                 TRAIN {[ "learning_rate" := 0.001%float ]}) 0%nat = Ok spec
     ∧ mode spec = TRAIN
     ∧ is_Some (loss spec) ∧ is_Some (train_op spec)
     ∧ ∃ rmse, eval_metric_ops spec = Some {[ "rmse" := rmse ]})
  ∧ (∃ spec : @EstimatorSpec Graph.handles,
       run Graph.tf (model_fn {[ "x" := Graph.sample_x ]} None PREDICT ∅)
         0%nat = Ok spec
       ∧ mode spec = PREDICT
       ∧ (∃ preds, predictions spec = Some {[ "ages" := preds ]})
       ∧ loss spec = None ∧ train_op spec = None
       ∧ eval_metric_ops spec = Some ∅).
Proof.
  split.
  - eexists. split; [vm_compute; reflexivity|].
    apply (model_fn_bundle Graph.tf {[ "x" := Graph.sample_x64 ]}
             (Some Graph.sample_labels) TRAIN
             {[ "learning_rate" := 0.001%float ]} 0%nat).
    vm_compute. reflexivity.
  - eexists. split; [vm_compute; reflexivity|].
    apply (model_fn_bundle Graph.tf {[ "x" := Graph.sample_x ]} None PREDICT
             ∅ 0%nat).
    vm_compute. reflexivity.
Defined.

(** C1, as stated, fails in PREDICT mode: on the sample batch [model_fn]
    returns a bundle that has predictions but no loss. *)
Lemma model_fn_bundle_counterexample :
  run Graph.tf (model_fn {[ "x" := Graph.sample_x ]} None PREDICT ∅) 0%nat
    = Ok (constructed (predict_spec Graph.sample_ages))
  ∧ ¬ bundles_all_four (constructed (predict_spec Graph.sample_ages)).
Proof.
  split; [vm_compute; reflexivity|].
  intros (_ & [l Hl] & _). discriminate Hl.
Qed.

(** C2.  A run of [model_fn] that returns has built exactly this network: a
    dense layer of 10 units with ReLU on [features["x"]], a second dense layer
    of 10 units with ReLU on the first, a dense layer of one unit with no
    activation on the second, reshaped to [[-1]].  In PREDICT mode nothing
    else is called but the constructor of the result.  In TRAIN and EVAL
    modes the loss of the result is the mean squared error between [labels]
    and the reshaped output, and its training step is [minimize] on that loss,
    by a gradient-descent optimizer made with [params["learning_rate"]]. *)
Theorem model_fn_network `{TFHandles} {St : Type} (h : handler tfE St)
    features labels m params s spec :
  run h (model_fn features labels m params) s = Ok spec ->
  ∃ x h1 h2 out preds,
    features !! "x" = Some x ∧
    ((m = PREDICT ∧
      spec = constructed (predict_spec preds) ∧
      log h (model_fn features labels m params) s =
        network_calls x h1 h2 out preds
          ++ [Entry (EstimatorSpec_new (predict_spec preds)) (Ok ())])
     ∨
     (m ≠ PREDICT ∧
      ∃ lo labels64 rmse lr opt gs op,
        params !! "learning_rate" = Some lr ∧
        loss spec = Some lo ∧ train_op spec = Some op ∧
        log h (model_fn features labels m params) s =
          network_calls x h1 h2 out preds
            ++ loss_calls labels preds lo labels64 rmse
            ++ train_calls lr lo opt gs op
            ++ [Entry (EstimatorSpec_new (train_spec m lo op rmse)) (Ok ())])).
Proof.
  intros Hrun. destruct (decide (m = PREDICT)) as [->|Hm].
  - apply model_fn_predict_inv in Hrun
      as (x & h1 & h2 & out & preds & Hx & -> & Hlog).
    exists x, h1, h2, out, preds. split; [done|]. left. done.
  - apply model_fn_train_inv in Hrun
      as (x & h1 & h2 & out & preds & lo & l64 & rmse & lr & opt & gs & op
          & Hx & Hlr & -> & Hlog); [|done].
    exists x, h1, h2, out, preds. split; [done|]. right. split; [done|].
    by exists lo, l64, rmse, lr, opt, gs, op.
Qed.

Lemma model_fn_network_witness :
  ∃ (spec : @EstimatorSpec Graph.handles) x h1 h2 out preds,
    run Graph.tf
      (model_fn {[ "x" := Graph.sample_x64 ]} (Some Graph.sample_labels) EVAL
                {[ "learning_rate" := 0.001%float ]}) 0%nat = Ok spec
    ∧ loss spec = Some Graph.sample_loss64
    ∧ network_calls x h1 h2 out preds `prefix_of`
        log Graph.tf
          (model_fn {[ "x" := Graph.sample_x64 ]} (Some Graph.sample_labels)
                    EVAL {[ "learning_rate" := 0.001%float ]}) 0%nat.
Proof.
  pose proof (model_fn_network Graph.tf {[ "x" := Graph.sample_x64 ]}
                (Some Graph.sample_labels) EVAL
                {[ "learning_rate" := 0.001%float ]} 0%nat _ eq_refl)
    as (x & h1 & h2 & out & preds & _ & [[[=] _]|[_ Htrain]]).
  destruct Htrain as (lo & l64 & rmse & lr & opt & gs & op & _ & _ & _ & Hlog).
  eexists _, x, h1, h2, out, preds.
  split; [vm_compute; reflexivity|]. split; [reflexivity|].
  rewrite Hlog. by eexists.
Defined.

(** C6.  [model_fn] handles no failure.  When a call it makes raises, that
    call is the last one it makes (nothing is retried or recovered) and
    [model_fn] ends with the very exception of the call.  Conversely, a
    failure of [model_fn] is never of its own making: it is the exception of
    its last call, or the [KeyError] of one of its two subscripts. *)
Theorem model_fn_propagates_failure `{TFHandles} {St : Type}
    (h : handler tfE St) features labels m params s :
  (∀ ent e,
     ent ∈ log h (model_fn features labels m params) s ->
     raised ent = Some e ->
     run h (model_fn features labels m params) s = Err e
     ∧ last (log h (model_fn features labels m params) s) = Some ent)
  ∧ (∀ e,
       run h (model_fn features labels m params) s = Err e ->
       (∃ ent, last (log h (model_fn features labels m params) s) = Some ent
               ∧ raised ent = Some e)
       ∨ (e = KeyError "x" ∧ features !! "x" = None)
       ∨ (e = KeyError "learning_rate" ∧ params !! "learning_rate" = None
          ∧ m ≠ PREDICT)).
Proof.
  split.
  - intros ent e. apply log_raised.
  - intros e. apply model_fn_failure_origin.
Qed.

Lemma model_fn_propagates_failure_witness :
  run Graph.tf (model_fn {[ "x" := Graph.sample_x ]} None TRAIN ∅) 0%nat
    = Err (Raised "ValueError" "labels must not be None.")
  ∧ last (log Graph.tf
            (model_fn {[ "x" := Graph.sample_x ]} None TRAIN ∅) 0%nat)
    = Some (Entry (losses_mean_squared_error None Graph.sample_ages)
                  (Err (Raised "ValueError" "labels must not be None."))).
Proof.
  apply (proj1 (model_fn_propagates_failure Graph.tf
                  {[ "x" := Graph.sample_x ]} None TRAIN ∅ 0%nat)).
  - vm_compute. do 4 apply list_elem_of_further. apply list_elem_of_here.
  - reflexivity.
Defined.

(** ** The reference TensorFlow obeys the shape contract *)

Lemma reshape_shape_flat (total : nat) :
  Graph.reshape_shape total [-1] = Some [total].
Proof.
  unfold Graph.reshape_shape. cbn.
  by rewrite Nat.div_1_r.
Qed.

Lemma tf_dense inputs units activation sh k :
  Graph.shape_of inputs = Some sh -> (2 <= length sh)%nat ->
  Graph.tf _ (layers_dense inputs units activation) k
    = (Ok (Graph.Dense inputs units activation), S k)
  ∧ Graph.shape_of (Graph.Dense inputs units activation)
    = Some (removelast sh ++ [units]).
Proof.
  intros Hsh Hlen.
  assert (Graph.shape_of (Graph.Dense inputs units activation)
          = Some (removelast sh ++ [units])) as Hd.
  { simpl. rewrite Hsh. simpl. by case_decide. }
  split; [|done].
  unfold Graph.tf, Graph.answer, Graph.checked. by rewrite Hd.
Qed.

Lemma tf_reshape_flat tensor sh k :
  Graph.shape_of tensor = Some sh ->
  Graph.tf _ (reshape tensor [-1]) k = (Ok (Graph.Reshape tensor [-1]), S k)
  ∧ Graph.shape_of (Graph.Reshape tensor [-1])
    = Some [Graph.num_elements sh].
Proof.
  intros Hsh.
  assert (Graph.shape_of (Graph.Reshape tensor [-1])
          = Some [Graph.num_elements sh]) as Hd.
  { simpl. rewrite Hsh. simpl. apply reshape_shape_flat. }
  split; [|done].
  unfold Graph.tf, Graph.answer, Graph.checked. by rewrite Hd.
Qed.

#[global] Instance graph_shape_laws : ShapeLaws Graph.tf Graph.shape.
Proof.
  split.
  - intros inputs units activation t [s Hs]. simpl in Hs.
    unfold Graph.checked in Hs.
    destruct (Graph.shape_of (Graph.Dense inputs units activation))
      as [sh|] eqn:Hsh; [|discriminate].
    injection Hs as <-. unfold Graph.shape. rewrite Hsh. simpl in Hsh.
    destruct (Graph.shape_of inputs) as [sh0|]; [|discriminate].
    simpl in *. case_decide; congruence.
  - intros tensor t [s Hs]. simpl in Hs. unfold Graph.checked in Hs.
    destruct (Graph.shape_of (Graph.Reshape tensor [-1]))
      as [sh|] eqn:Hsh; [|discriminate].
    injection Hs as <-. unfold Graph.shape. rewrite Hsh. simpl in Hsh.
    destruct (Graph.shape_of tensor) as [sh0|]; [|discriminate].
    simpl in *. rewrite reshape_shape_flat in Hsh. congruence.
Qed.

(** C8.  In PREDICT mode [model_fn] returns before the loss computation: the
    whole run (outcome, final state and calls) is the same whatever [labels]
    is, no call of the loss computation is made, and on the reference
    TensorFlow the call succeeds with [labels = None] on any batch
    [features["x"]] of rank two. *)
Theorem model_fn_predict_ignores_labels :
  (∀ `{TFHandles} (St : Type) (h : handler tfE St) features labels params s,
     exec h (model_fn features labels PREDICT params) s
       = exec h (model_fn features None PREDICT params) s
     ∧ Forall (fun ent => loss_call (called ent) = false)
         (log h (model_fn features labels PREDICT params) s))
  ∧ (∀ (x : Graph.node) n d params k,
       Graph.shape_of x = Some [n; d] ->
       run Graph.tf (model_fn {[ "x" := x ]} None PREDICT params) k
         = Ok (constructed
                 (predict_spec
                    (Graph.Reshape
                    (Graph.Dense
                       (Graph.Dense (Graph.Dense x 10 (Some relu)) 10
                          (Some relu)) 1 None) [-1])))).
Proof.
  split.
  - intros H St h features labels params s. split; [reflexivity|].
    unfold log, model_fn, getitem.
    destruct (features !! "x") as [x|]; simpl; [|constructor].
    do 5 (answer h; [|repeat constructor]).
    repeat constructor.
  - intros x n d params k Hx.
    destruct (tf_dense x 10%nat (Some relu) _ k Hx) as [T1 S1];
      [simpl; lia|].
    destruct (tf_dense _ 10%nat (Some relu) _ (S k) S1) as [T2 S2];
      [simpl; lia|].
    destruct (tf_dense _ 1%nat None _ (S (S k)) S2) as [T3 S3];
      [simpl; lia|].
    destruct (tf_reshape_flat _ _ (S (S (S k))) S3) as [T4 _].
    unfold run, model_fn, getitem. rewrite lookup_singleton_eq.
    cbn [mbind prog_bind bind call exec].
    rewrite T1. cbn [mbind prog_bind bind call exec].
    rewrite T2. cbn [mbind prog_bind bind call exec].
    rewrite T3. cbn [mbind prog_bind bind call exec].
    rewrite T4. reflexivity.
Qed.

Lemma model_fn_predict_ignores_labels_witness :
  run Graph.tf (model_fn {[ "x" := Graph.sample_x ]} None PREDICT ∅) 0%nat
    = Ok (constructed (predict_spec Graph.sample_ages))
  ∧ exec Graph.tf
      (model_fn {[ "x" := Graph.sample_x ]} (Some Graph.sample_labels)
                PREDICT ∅) 0%nat
    = exec Graph.tf (model_fn {[ "x" := Graph.sample_x ]} None PREDICT ∅) 0%nat.
Proof.
  split.
  - apply (proj2 model_fn_predict_ignores_labels Graph.sample_x 3%nat 7%nat).
    reflexivity.
  - apply (proj1 model_fn_predict_ignores_labels).
Defined.

(** C10.  In PREDICT mode the predictions of the returned [EstimatorSpec] are
    a dict with the single key ["ages"], mapped to the output layer reshaped
    to [[-1]]; when [features["x"]] is a batch of [n] examples (shape
    [[n; d]]), that tensor has shape [[n]]. *)
Theorem model_fn_predictions `{TFHandles} {St : Type} (h : handler tfE St)
    (shape : Tensor -> list nat) (laws : ShapeLaws h shape)
    features labels params s spec x n d :
  run h (model_fn features labels PREDICT params) s = Ok spec ->
  features !! "x" = Some x ->
  shape x = [n; d] ->
  ∃ h1 h2 out preds,
    log h (model_fn features labels PREDICT params) s =
      network_calls x h1 h2 out preds
        ++ [Entry (EstimatorSpec_new (predict_spec preds)) (Ok ())]
    ∧ predictions spec = Some {[ "ages" := preds ]}
    ∧ shape preds = [n].
Proof.
  intros Hrun Hx Hshape.
  apply model_fn_predict_inv in Hrun
    as (x' & h1 & h2 & out & preds & Hx' & -> & Hlog).
  assert (x' = x) as -> by congruence.
  exists h1, h2, out, preds. split; [done|]. split; [done|].
  assert (∀ ent, ent ∈ network_calls x h1 h2 out preds -> answered h ent)
    as Hans.
  { intros ent Hent.
    apply (log_answered h (model_fn features labels PREDICT params) s).
    rewrite Hlog. apply elem_of_app. by left. }
  assert (shape h1 = [n; 10%nat]) as Hh1.
  { rewrite (dense_shape x 10%nat (Some relu) h1), Hshape; [done|].
    apply Hans. apply list_elem_of_here. }
  assert (shape h2 = [n; 10%nat]) as Hh2.
  { rewrite (dense_shape h1 10%nat (Some relu) h2), Hh1; [done|].
    apply Hans. do 1 apply list_elem_of_further. apply list_elem_of_here. }
  assert (shape out = [n; 1%nat]) as Hout.
  { rewrite (dense_shape h2 1%nat None out), Hh2; [done|].
    apply Hans. do 2 apply list_elem_of_further. apply list_elem_of_here. }
  rewrite (reshape_flat out preds), Hout.
  - simpl. by rewrite !Nat.mul_1_r.
  - apply Hans. do 3 apply list_elem_of_further. apply list_elem_of_here.
Qed.

Lemma model_fn_predictions_witness :
  ∃ (spec : @EstimatorSpec Graph.handles) h1 h2 out preds,
    log Graph.tf (model_fn {[ "x" := Graph.sample_x ]} None PREDICT ∅) 0%nat =
      network_calls Graph.sample_x h1 h2 out preds
        ++ [Entry (EstimatorSpec_new (predict_spec preds)) (Ok ())]
    ∧ predictions spec = Some {[ "ages" := preds ]}
    ∧ Graph.shape preds = [3%nat].
Proof.
  eexists.
  apply (model_fn_predictions Graph.tf Graph.shape graph_shape_laws
           {[ "x" := Graph.sample_x ]} None ∅ 0%nat _ Graph.sample_x
           3%nat 7%nat).
  - vm_compute. reflexivity.
  - reflexivity.
  - reflexivity.
Defined.

(** ** Runs of the notebook *)

Section NotebookRuns.
Context `{CloudHandles} {St : Type} (h : handler nbE St).

(** A complete run made exactly the calls of the cells, each once, in the
    order of the cells, every call fed with the answers of earlier ones. *)
Lemma notebook_ok_inv s resp :
  run h notebook s = Ok resp ->
  ∃ session role inputs status est pred ds row tp session',
    data ds !! 0%nat = Some row ∧
    log h notebook s =
      notebook_calls session role inputs status est pred ds row tp resp
        session'.
Proof.
  unfold run, log, notebook, cell_3, cell_5, cell_8, cell_17, cell_20,
    cell_23, cell_24, cell_26, getindex. simpl.
  do 8 (answer h; try discriminate).
  destruct (data a6 !! 0%nat) as [row|] eqn:Hrow; simpl; [|discriminate].
  do 4 (answer h; try discriminate).
  intros [= <-]. destruct a4, a10.
  by eexists a, a0, a1, a2, a3, a5, a6, row, a7, a9.
Qed.

(** Whatever the answers, the calls made are an initial segment of the
    script. *)
Lemma notebook_prefix s :
  steps (trace h notebook s) `prefix_of` script.
Proof.
  unfold steps, trace, log, notebook, cell_3, cell_5, cell_8, cell_17,
    cell_20, cell_23, cell_24, cell_26, getindex. simpl.
  do 8 (answer h; [|by eexists]).
  destruct (data a6 !! 0%nat) as [row|]; simpl; [|by eexists].
  do 4 (answer h; [|by eexists]).
  by eexists.
Qed.

(** Every estimator that the notebook constructs is given the
    hyperparameter [learning_rate = 0.001]. *)
Lemma notebook_hyperparameters s :
  Forall (fun c => ∀ args, estimator_args c = Some args ->
              hyperparameters args !! "learning_rate" = Some 0.001%float)
    (trace h notebook s).
Proof.
  unfold trace, log, notebook, cell_3, cell_5, cell_8, cell_17,
    cell_20, cell_23, cell_24, cell_26, getindex. simpl.
  assert (∀ role : string,
    hyperparameters (abalone_estimator_args role) !! "learning_rate"
      = Some 0.001%float) as Hlr by done.
  do 8 (answer h;
    [|repeat (constructor; [by (intros ? [= <-]; try apply Hlr)|]);
      constructor]).
  destruct (data a6 !! 0%nat) as [row|]; simpl;
    [|repeat (constructor; [by (intros ? [= <-]; try apply Hlr)|]);
      constructor].
  do 4 (answer h;
    [|repeat (constructor; [by (intros ? [= <-]; try apply Hlr)|]);
      constructor]).
  repeat (constructor; [by (intros ? [= <-]; try apply Hlr)|]).
  constructor.
Qed.

End NotebookRuns.

(** C9, as amended.  In TRAIN and EVAL modes [model_fn] reads
    [params["learning_rate"]] after it has built the network, the loss and the
    metric.  When [params] has no such key the call never returns.  It ends
    with the [KeyError] of that key when [features["x"]] exists and the seven
    calls before the lookup returned; otherwise it ends with the exception of
    the earlier step, which is the last call made or the subscript
    [features["x"]].  The notebook meets the precondition: no run constructs an
    estimator without [learning_rate = 0.001], and a complete run constructs
    exactly one estimator, with [hyperparameters = {'learning_rate': 0.001}]. *)
Theorem model_fn_needs_learning_rate `{TFHandles} {St : Type}
    (h : handler tfE St) features labels m params s :
  m ≠ PREDICT ->
  params !! "learning_rate" = None ->
  (∃ e, run h (model_fn features labels m params) s = Err e
        ∧ (is_Some (features !! "x") ->
           Forall (fun ent => raised ent = None)
             (log h (model_fn features labels m params) s) ->
           e = KeyError "learning_rate"
           ∧ ∃ x h1 h2 out preds lo labels64 rmse,
               log h (model_fn features labels m params) s =
                 network_calls x h1 h2 out preds
                   ++ loss_calls labels preds lo labels64 rmse)
        ∧ (e = KeyError "learning_rate"
           ∨ (e = KeyError "x" ∧ features !! "x" = None)
           ∨ ∃ ent,
               last (log h (model_fn features labels m params) s) = Some ent
               ∧ raised ent = Some e))
  ∧ (∀ `{CloudHandles} (St' : Type) (h' : handler nbE St') s',
       Forall (fun c => ∀ args, estimator_args c = Some args ->
                 hyperparameters args !! "learning_rate" = Some 0.001%float)
         (trace h' notebook s')
       ∧ (∀ resp,
            run h' notebook s' = Ok resp ->
            filter (fun st => st = SEstimator) (steps (trace h' notebook s'))
              = [SEstimator]
            ∧ ∃ role est,
                Entry (TensorFlow (abalone_estimator_args role)) (Ok est)
                  ∈ log h' notebook s'
                ∧ hyperparameters (abalone_estimator_args role)
                  = {[ "learning_rate" := 0.001%float ]})).
Proof.
  intros Hm Hlr. split.
  - assert (∃ e, run h (model_fn features labels m params) s = Err e
                 ∧ (is_Some (features !! "x") ->
                    Forall (fun ent => raised ent = None)
                      (log h (model_fn features labels m params) s) ->
                    e = KeyError "learning_rate"
                    ∧ ∃ x h1 h2 out preds lo labels64 rmse,
                        log h (model_fn features labels m params) s =
                          network_calls x h1 h2 out preds
                            ++ loss_calls labels preds lo labels64 rmse))
      as (e & Hrun & He).
    { unfold run, log, model_fn, getitem.
      destruct (features !! "x") as [x|]; simpl;
        [|eexists; split; [done|]; by intros [? [=]]].
      do 4 (answer h; [|eexists; split; [done|]; intros _ Hall; exfalso;
        repeat (apply Forall_cons in Hall as [? Hall]); simpl in *;
        congruence]).
      destruct (decide (m = PREDICT)); [done|]. simpl.
      do 3 (answer h; [|eexists; split; [done|]; intros _ Hall; exfalso;
        repeat (apply Forall_cons in Hall as [? Hall]); simpl in *;
        congruence]).
      rewrite Hlr. simpl. eexists. split; [done|]. intros _ _.
      split; [done|]. by eexists x, _, _, _, _, _, _, _. }
    exists e. split; [done|]. split; [done|].
    destruct (model_fn_failure_origin h features labels m params s e Hrun)
      as [Hlast|[Hx|(-> & _)]]; auto.
  - intros HC St' h' s'. split; [apply notebook_hyperparameters|].
    intros resp Hrun.
    apply notebook_ok_inv in Hrun
      as (session & role & inputs & status & est & pred & ds & row & tp
          & session' & _ & Hlog).
    unfold steps, trace. rewrite Hlog. split; [reflexivity|].
    exists role, est. split; [|reflexivity].
    unfold notebook_calls. do 4 apply list_elem_of_further.
    apply list_elem_of_here.
Qed.

Lemma model_fn_needs_learning_rate_witness :
  run Graph.tf
    (model_fn {[ "x" := Graph.sample_x64 ]} (Some Graph.sample_labels) TRAIN ∅)
    0%nat
  = Err (KeyError "learning_rate")
  ∧ ∃ role est,
      Entry (TensorFlow (abalone_estimator_args role)) (Ok est)
        ∈ log Sim.service notebook Sim.fresh
      ∧ hyperparameters (abalone_estimator_args role)
        = {[ "learning_rate" := 0.001%float ]}.
Proof.
  destruct (model_fn_needs_learning_rate Graph.tf
              {[ "x" := Graph.sample_x64 ]} (Some Graph.sample_labels) TRAIN ∅
              0%nat) as [(e & Hrun & He & _) Hnotebook].
  - discriminate.
  - reflexivity.
  - split.
    + rewrite Hrun. f_equal. apply He.
      * by eexists.
      * vm_compute. repeat constructor.
    + destruct (Hnotebook Sim.handles _ Sim.service Sim.fresh) as [_ Hrun'].
      destruct (Hrun' ["9.5"] eq_refl) as (_ & role & est & Hest).
      by exists role, est.
Defined.

(** C9, as stated, fails when an earlier step of [model_fn] fails: in TRAIN
    mode with no labels and no ["learning_rate"], the call ends with the
    [ValueError] of the loss, before the hyperparameters are read. *)
Lemma model_fn_needs_learning_rate_counterexample :
  (∅ : gmap string float) !! "learning_rate" = None
  ∧ run Graph.tf (model_fn {[ "x" := Graph.sample_x64 ]} None TRAIN ∅) 0%nat
    = Err (Raised "ValueError" "labels must not be None.")
  ∧ Raised "ValueError" "labels must not be None."
    ≠ KeyError "learning_rate".
Proof.
  split; [reflexivity|]. split; [vm_compute; reflexivity|discriminate].
Qed.

(** C3.  A complete run of the notebook invokes the endpoint exactly once.
    The request is the tensor made from the first row of the prediction
    data set with shape [[1, len(data)]]: a batch of one example. *)
Theorem notebook_single_request `{CloudHandles} {St : Type}
    (h : handler nbE St) s resp :
  run h notebook s = Ok resp ->
  filter (fun st => st = SPredict) (steps (trace h notebook s)) = [SPredict]
  ∧ ∃ ds row tp pred,
      Entry (load_csv_without_header "data/abalone_predict.csv" np_int
               float32) (Ok ds) ∈ log h notebook s
      ∧ data ds !! 0%nat = Some row
      ∧ Entry (make_tensor_proto row [1; Z.of_nat (length row)] float32)
              (Ok tp) ∈ log h notebook s
      ∧ Entry (predict pred tp) (Ok resp) ∈ log h notebook s.
Proof.
  intros Hrun.
  apply notebook_ok_inv in Hrun
    as (session & role & inputs & status & est & pred & ds & row & tp
        & session' & Hrow & Hlog).
  unfold steps, trace. rewrite Hlog. split; [reflexivity|].
  exists ds, row, tp, pred. unfold notebook_calls.
  repeat split; [|done| |]; rewrite !elem_of_cons; tauto.
Qed.

Lemma notebook_single_request_witness :
  filter (fun st => st = SPredict)
    (steps (trace Sim.service notebook Sim.fresh)) = [SPredict]
  ∧ ∃ ds row tp pred,
      Entry (load_csv_without_header "data/abalone_predict.csv" np_int
               float32) (Ok ds) ∈ log Sim.service notebook Sim.fresh
      ∧ data ds !! 0%nat = Some row
      ∧ Entry (make_tensor_proto row [1; Z.of_nat (length row)] float32)
              (Ok tp) ∈ log Sim.service notebook Sim.fresh
      ∧ Entry (predict pred tp) (Ok ["9.5"])
          ∈ log Sim.service notebook Sim.fresh.
Proof.
  apply (notebook_single_request Sim.service Sim.fresh ["9.5"]).
  vm_compute. reflexivity.
Defined.

(** C5.  The external calls of the notebook follow the cells: whatever the
    services answer, the calls made are an initial segment of the script, so
    that the pipeline steps made are an initial segment of upload, fit,
    deploy, predict, delete; in a complete run they are the whole script, each
    pipeline step being made once, in that order. *)
Theorem notebook_linear `{CloudHandles} {St : Type} (h : handler nbE St) s :
  steps (trace h notebook s) `prefix_of` script
  ∧ filter pipeline_step (steps (trace h notebook s)) `prefix_of` pipeline
  ∧ (is_ok (run h notebook s) = true ->
     steps (trace h notebook s) = script
     ∧ filter pipeline_step (steps (trace h notebook s)) = pipeline).
Proof.
  pose proof (notebook_prefix h s) as [k Hk]. split; [by exists k|]. split.
  - exists (filter pipeline_step k).
    change pipeline with (filter pipeline_step script).
    by rewrite Hk, filter_app.
  - destruct (run h notebook s) as [resp|e] eqn:Hrun; [intros _|done].
    apply notebook_ok_inv in Hrun
      as (session & role & inputs & status & est & pred & ds & row & tp
          & session' & _ & Hlog).
    unfold steps, trace. rewrite Hlog. done.
Qed.

Lemma notebook_linear_witness :
  steps (trace Sim.service notebook Sim.fresh) = script
  ∧ filter pipeline_step (steps (trace Sim.service notebook Sim.fresh))
    = pipeline.
Proof.
  apply (notebook_linear Sim.service Sim.fresh).
  vm_compute. reflexivity.
Defined.

(** C7.  When the prediction CSV has eight columns (the seven measurements of
    the notebook's table, then the number of rings), the one request of a
    complete run has shape [[1, 7]]: its values are the seven feature fields
    of the first row as float32, and the ring count, the target of that row,
    is left out. *)
Theorem request_has_seven_features `{CloudHandles} {St : Type}
    (h : handler nbE St) s resp rows row :
  (∀ s0, (h _ (load_csv_without_header "data/abalone_predict.csv" np_int
                 float32) s0).1 = Ok (dataset_of_rows rows)) ->
  rows !! 0%nat = Some row ->
  length row = 8%nat ->
  run h notebook s = Ok resp ->
  length (removelast row) = 7%nat
  ∧ target (dataset_of_rows rows) !! 0%nat = Some (np_int_of (List.last row ""))
  ∧ filter (fun st => st = SPredict) (steps (trace h notebook s)) = [SPredict]
  ∧ ∃ pred tp,
      Entry (make_tensor_proto (np_float32_of <$> removelast row) [1; 7]
               float32) (Ok tp) ∈ log h notebook s
      ∧ Entry (predict pred tp) (Ok resp) ∈ log h notebook s.
Proof.
  intros Hfile Hrow Hlen Hrun.
  assert (length (removelast row) = 7%nat) as Hlen'.
  { do 9 (destruct row as [|? row]; try discriminate). done. }
  split; [done|]. split.
  { unfold dataset_of_rows. simpl. by rewrite list_lookup_fmap, Hrow. }
  apply notebook_ok_inv in Hrun
    as (session & role & inputs & status & est & pred & ds & row' & tp
        & session' & Hrow' & Hlog).
  assert (Entry (load_csv_without_header "data/abalone_predict.csv" np_int
                   float32) (Ok ds) ∈ log h notebook s) as Hds.
  { rewrite Hlog. unfold notebook_calls. rewrite !elem_of_cons. tauto. }
  apply log_answered in Hds as [s0 Hds]. rewrite Hfile in Hds.
  injection Hds as <-.
  unfold dataset_of_rows in Hrow'. simpl in Hrow'.
  rewrite list_lookup_fmap, Hrow in Hrow'. injection Hrow' as <-.
  unfold steps, trace. rewrite Hlog. split; [reflexivity|].
  exists pred, tp. unfold notebook_calls.
  rewrite length_fmap, Hlen'. split; rewrite !elem_of_cons; tauto.
Qed.

Lemma request_has_seven_features_witness :
  ∃ pred tp,
    Entry (make_tensor_proto
             ["0.295"; "0.225"; "0.08"; "0.124"; "0.0485"; "0.032"; "0.04"]
             [1; 7] float32) (Ok tp) ∈ log Sim.service notebook Sim.fresh
    ∧ Entry (predict pred tp) (Ok ["9.5"])
        ∈ log Sim.service notebook Sim.fresh.
Proof.
  apply (request_has_seven_features Sim.service Sim.fresh ["9.5"]
           Sim.abalone_predict_csv
           ["0.295"; "0.225"; "0.08"; "0.124"; "0.0485"; "0.032"; "0.04";
            "9"]).
  - intros s0. reflexivity.
  - reflexivity.
  - reflexivity.
  - vm_compute. reflexivity.
Defined.

(** The estimator of a complete run is constructed once, with exactly the
    keyword arguments of cell 17, the role being the answer of
    [get_execution_role]; the model is deployed on one [ml.m4.xlarge]
    instance, and the request goes to the predictor so deployed. *)
Lemma notebook_estimator_call `{CloudHandles} {St : Type}
    (h : handler nbE St) s resp :
  run h notebook s = Ok resp ->
  filter (fun st => st = SEstimator) (steps (trace h notebook s))
    = [SEstimator]
  ∧ ∃ role est pred tp,
      Entry get_execution_role (Ok role) ∈ log h notebook s
      ∧ Entry (TensorFlow (abalone_estimator_args role)) (Ok est)
          ∈ log h notebook s
      ∧ Entry (deploy est 1 "ml.m4.xlarge") (Ok pred) ∈ log h notebook s
      ∧ Entry (predict pred tp) (Ok resp) ∈ log h notebook s.
Proof.
  intros Hrun.
  apply notebook_ok_inv in Hrun
    as (session & role & inputs & status & est & pred & ds & row & tp
        & session' & Hrow & Hlog).
  unfold steps, trace. rewrite Hlog. split; [reflexivity|].
  exists role, est, pred, tp. unfold notebook_calls.
  repeat split; rewrite !elem_of_cons; tauto.
Qed.

(** * Further properties of [model_fn] *)

(** [model_fn] reads [features] at the key ["x"] only: two feature dicts that
    agree on ["x"] give the same run, and without the key the run ends with
    [KeyError "x"] before any call is made, in every mode. *)
Theorem model_fn_reads_only_x `{TFHandles} {St : Type} (h : handler tfE St)
    features features' labels m params s :
  (features !! "x" = features' !! "x" ->
   exec h (model_fn features labels m params) s
     = exec h (model_fn features' labels m params) s)
  ∧ (features !! "x" = None ->
     exec h (model_fn features labels m params) s = (Err (KeyError "x"), s, [])).
Proof.
  unfold model_fn, getitem. split; intros Hx.
  - by rewrite Hx.
  - by rewrite Hx.
Qed.

Lemma model_fn_reads_only_x_witness :
  exec Graph.tf
    (model_fn {[ "x" := Graph.sample_x; "sex" := Graph.sample_labels ]}
              None PREDICT ∅) 0%nat
  = exec Graph.tf (model_fn {[ "x" := Graph.sample_x ]} None PREDICT ∅) 0%nat
  ∧ exec Graph.tf
      (model_fn {[ "features" := Graph.sample_x ]} None TRAIN ∅) 0%nat
    = (Err (KeyError "x"), 0%nat, []).
Proof.
  split.
  - apply (proj1 (model_fn_reads_only_x Graph.tf
                    {[ "x" := Graph.sample_x; "sex" := Graph.sample_labels ]}
                    {[ "x" := Graph.sample_x ]} None PREDICT ∅ 0%nat)).
    vm_compute. reflexivity.
  - apply (proj2 (model_fn_reads_only_x Graph.tf
                    {[ "features" := Graph.sample_x ]} ∅ None TRAIN ∅ 0%nat)).
    vm_compute. reflexivity.
Defined.

(** In PREDICT mode the hyperparameters are never read and nothing of the
    training step is built: the run is the same for every [params], and makes
    no call to the optimizer, the global step or [minimize]. *)
Theorem model_fn_predict_ignores_params `{TFHandles} {St : Type}
    (h : handler tfE St) features labels params s :
  exec h (model_fn features labels PREDICT params) s
    = exec h (model_fn features labels PREDICT ∅) s
  ∧ Forall (fun ent => train_call (called ent) = false)
      (log h (model_fn features labels PREDICT params) s).
Proof.
  split; [reflexivity|].
  unfold log, model_fn, getitem.
  destruct (features !! "x") as [x|]; simpl; [|constructor].
  do 5 (answer h; [|repeat constructor]).
  repeat constructor.
Qed.

(** Without the key ["learning_rate"] no part of the training step is ever
    built, in any mode: the optimizer, the global step and [minimize] are
    called only after the hyperparameter has been read. *)
Theorem model_fn_no_rate_no_training `{TFHandles} {St : Type}
    (h : handler tfE St) features labels m params s :
  params !! "learning_rate" = None ->
  Forall (fun ent => train_call (called ent) = false)
    (log h (model_fn features labels m params) s).
Proof.
  intros Hlr. unfold log, model_fn, getitem.
  destruct (features !! "x") as [x|]; simpl; [|constructor].
  do 4 (answer h; [|repeat constructor]).
  destruct (decide (m = PREDICT)); simpl.
  { answer h; repeat constructor. }
  do 3 (answer h; [|repeat constructor]).
  rewrite Hlr. simpl. repeat constructor.
Qed.

Lemma model_fn_no_rate_no_training_witness :
  Forall (fun ent => train_call (called ent) = false)
    (log Graph.tf
       (model_fn {[ "x" := Graph.sample_x64 ]} (Some Graph.sample_labels) EVAL ∅)
       0%nat)
  ∧ length (log Graph.tf
              (model_fn {[ "x" := Graph.sample_x64 ]} (Some Graph.sample_labels)
                        EVAL ∅) 0%nat) = 7%nat.
Proof.
  split; [|reflexivity].
  apply (model_fn_no_rate_no_training Graph.tf). reflexivity.
Defined.

(** In TRAIN and EVAL modes the evaluation metrics of the returned bundle are
    a dict with the single key ["rmse"], mapped to the root mean squared error
    between [labels] cast to [float64] and the predictions, which are the
    output layer (the dense layer of one unit on the second hidden layer)
    reshaped to [[-1]]: the log of the run is exactly the network, the loss
    with that metric, the training step and the constructor. *)
Theorem model_fn_eval_metric `{TFHandles} {St : Type} (h : handler tfE St)
    features labels m params s spec :
  m ≠ PREDICT ->
  run h (model_fn features labels m params) s = Ok spec ->
  ∃ x h1 h2 out preds lo labels64 rmse lr opt gs op,
    features !! "x" = Some x
    ∧ eval_metric_ops spec = Some {[ "rmse" := rmse ]}
    ∧ log h (model_fn features labels m params) s =
        [ Entry (layers_dense x 10 (Some relu)) (Ok h1);
          Entry (layers_dense h1 10 (Some relu)) (Ok h2);
          Entry (layers_dense h2 1 None) (Ok out);
          Entry (reshape out [-1]) (Ok preds);
          Entry (losses_mean_squared_error labels preds) (Ok lo);
          Entry (cast labels float64) (Ok labels64);
          Entry (metrics_root_mean_squared_error labels64 preds) (Ok rmse) ]
        ++ train_calls lr lo opt gs op
        ++ [Entry (EstimatorSpec_new (train_spec m lo op rmse)) (Ok ())].
Proof.
  intros Hm Hrun.
  apply model_fn_train_inv in Hrun
    as (x & h1 & h2 & out & preds & lo & l64 & rmse & lr & opt & gs & op
        & Hx & _ & -> & Hlog); [|done].
  exists x, h1, h2, out, preds, lo, l64, rmse, lr, opt, gs, op.
  split; [done|]. split; [done|]. by rewrite Hlog.
Qed.

Lemma model_fn_eval_metric_witness :
  ∃ (spec : @EstimatorSpec Graph.handles) h1 h2 out lr opt gs op,
    run Graph.tf
      (model_fn {[ "x" := Graph.sample_x64 ]} (Some Graph.sample_labels) EVAL
                {[ "learning_rate" := 0.001%float ]}) 0%nat = Ok spec
    ∧ eval_metric_ops spec
      = Some {[ "rmse" := Graph.RootMeanSquaredError
                            (Graph.Cast Graph.sample_labels float64)
                            Graph.sample_ages64 ]}
    ∧ log Graph.tf
        (model_fn {[ "x" := Graph.sample_x64 ]} (Some Graph.sample_labels)
                  EVAL {[ "learning_rate" := 0.001%float ]}) 0%nat =
        [ Entry (layers_dense Graph.sample_x64 10 (Some relu)) (Ok h1);
          Entry (layers_dense h1 10 (Some relu)) (Ok h2);
          Entry (layers_dense h2 1 None) (Ok out);
          Entry (reshape out [-1]) (Ok Graph.sample_ages64);
          Entry (losses_mean_squared_error (Some Graph.sample_labels)
                   Graph.sample_ages64) (Ok Graph.sample_loss64);
          Entry (cast (Some Graph.sample_labels) float64)
                (Ok (Graph.Cast Graph.sample_labels float64));
          Entry (metrics_root_mean_squared_error
                   (Graph.Cast Graph.sample_labels float64)
                   Graph.sample_ages64)
                (Ok (Graph.RootMeanSquaredError
                       (Graph.Cast Graph.sample_labels float64)
                       Graph.sample_ages64)) ]
        ++ train_calls lr Graph.sample_loss64 opt gs op
        ++ [Entry (EstimatorSpec_new
                     (train_spec EVAL Graph.sample_loss64 op
                        (Graph.RootMeanSquaredError
                           (Graph.Cast Graph.sample_labels float64)
                           Graph.sample_ages64))) (Ok ())].
Proof.
  destruct (model_fn_eval_metric Graph.tf {[ "x" := Graph.sample_x64 ]}
              (Some Graph.sample_labels) EVAL
              {[ "learning_rate" := 0.001%float ]} 0%nat _
              ltac:(discriminate) eq_refl)
    as (x & h1 & h2 & out & preds & lo & l64 & rmse & lr & opt & gs & op
        & Hx & Hm & Hlog).
  eexists _, _, _, _, _, _, _, _.
  split; [reflexivity|]. split; reflexivity.
Defined.

(** TRAIN and EVAL build the same graph.  From the same state the two runs
    make the same ten calls with the same answers before the constructor of
    the result, the optimizer and the training step included; when both
    return, the two bundles are built from the same loss, training step and
    metric and differ in their mode only. *)
Theorem model_fn_train_eval_agree `{TFHandles} {St : Type}
    (h : handler tfE St) features labels params s :
  take 10 (log h (model_fn features labels TRAIN params) s)
    = take 10 (log h (model_fn features labels EVAL params) s)
  ∧ (∀ spec spec',
       run h (model_fn features labels TRAIN params) s = Ok spec ->
       run h (model_fn features labels EVAL params) s = Ok spec' ->
       mode spec = TRAIN ∧ mode spec' = EVAL
       ∧ predictions spec = predictions spec'
       ∧ loss spec = loss spec'
       ∧ train_op spec = train_op spec'
       ∧ eval_metric_ops spec = eval_metric_ops spec'
       ∧ ∃ lo op rmse,
           spec = constructed (train_spec TRAIN lo op rmse)
           ∧ spec' = constructed (train_spec EVAL lo op rmse)
           ∧ Entry (EstimatorSpec_new (train_spec TRAIN lo op rmse)) (Ok ())
               ∈ log h (model_fn features labels TRAIN params) s
           ∧ Entry (EstimatorSpec_new (train_spec EVAL lo op rmse)) (Ok ())
               ∈ log h (model_fn features labels EVAL params) s).
Proof.
  unfold run, log, model_fn, getitem.
  destruct (features !! "x") as [x|]; simpl; [|by split].
  do 7 (answer h; [|by split]).
  destruct (params !! "learning_rate") as [lr|]; simpl; [|by split].
  do 3 (answer h; [|by split]).
  do 2 answer h; (split; [reflexivity|]); intros spec spec' Ht He;
    try discriminate.
  injection Ht as <-. injection He as <-. destruct a9, a10.
  repeat (split; [reflexivity|]). eexists _, _, _.
  split; [reflexivity|]. split; [reflexivity|]. split; find_entry.
Qed.

Lemma model_fn_train_eval_agree_witness :
  ∃ lo op rmse,
    run Graph.tf
      (model_fn {[ "x" := Graph.sample_x64 ]} (Some Graph.sample_labels) TRAIN
                {[ "learning_rate" := 0.001%float ]}) 0%nat
      = Ok (constructed (train_spec TRAIN lo op rmse))
    ∧ run Graph.tf
        (model_fn {[ "x" := Graph.sample_x64 ]} (Some Graph.sample_labels)
                  EVAL {[ "learning_rate" := 0.001%float ]}) 0%nat
      = Ok (constructed (train_spec EVAL lo op rmse)).
Proof.
  edestruct (proj2 (model_fn_train_eval_agree Graph.tf
                      {[ "x" := Graph.sample_x64 ]}
                      (Some Graph.sample_labels)
                      {[ "learning_rate" := 0.001%float ]} 0%nat))
    as (_ & _ & _ & _ & _ & _ & lo & op & rmse & Ht & He & _);
    [vm_compute; reflexivity | vm_compute; reflexivity |].
  exists lo, op, rmse. rewrite <- Ht, <- He.
  split; vm_compute; reflexivity.
Defined.

Lemma num_elements_snoc_one (sh : list nat) :
  Graph.num_elements (sh ++ [1%nat]) = Graph.num_elements sh.
Proof.
  unfold Graph.num_elements.
  induction sh as [|d sh IH]; simpl; [done|]. by rewrite IH.
Qed.

(** A run of [model_fn] that returns, in any mode, has made one prediction per
    feature vector: under the shape contract of [dense] and [reshape], the
    reshaped output has as many elements as [features["x"]] has without its
    last dimension, whatever the rank of the input. *)
Theorem model_fn_one_prediction_per_vector `{TFHandles} {St : Type}
    (h : handler tfE St) (shape : Tensor -> list nat) (laws : ShapeLaws h shape)
    features labels m params s spec x :
  run h (model_fn features labels m params) s = Ok spec ->
  features !! "x" = Some x ->
  ∃ h1 h2 out preds,
    network_calls x h1 h2 out preds
      `prefix_of` log h (model_fn features labels m params) s
    ∧ shape preds = [Graph.num_elements (removelast (shape x))].
Proof.
  intros Hrun Hx.
  assert (∃ h1 h2 out preds,
    network_calls x h1 h2 out preds
      `prefix_of` log h (model_fn features labels m params) s)
    as (h1 & h2 & out & preds & Hpre).
  { destruct (decide (m = PREDICT)) as [->|Hm].
    - apply model_fn_predict_inv in Hrun
        as (x' & h1 & h2 & out & preds & Hx' & _ & Hlog).
      assert (x' = x) as -> by congruence.
      exists h1, h2, out, preds. rewrite Hlog. by eexists.
    - apply model_fn_train_inv in Hrun
        as (x' & h1 & h2 & out & preds & lo & l64 & rmse & lr & opt & gs & op
            & Hx' & _ & _ & Hlog); [|done].
      assert (x' = x) as -> by congruence.
      exists h1, h2, out, preds. rewrite Hlog. by eexists. }
  exists h1, h2, out, preds. split; [done|].
  assert (∀ ent, ent ∈ network_calls x h1 h2 out preds -> answered h ent)
    as Hans.
  { intros ent Hent.
    apply (log_answered h (model_fn features labels m params) s).
    destruct Hpre as [k ->]. apply elem_of_app. by left. }
  assert (shape h1 = removelast (shape x) ++ [10%nat]) as Hh1.
  { apply (dense_shape x 10%nat (Some relu) h1), Hans, list_elem_of_here. }
  assert (shape h2 = removelast (shape x) ++ [10%nat]) as Hh2.
  { rewrite (dense_shape h1 10%nat (Some relu) h2), Hh1.
    - by rewrite removelast_last.
    - apply Hans. do 1 apply list_elem_of_further. apply list_elem_of_here. }
  assert (shape out = removelast (shape x) ++ [1%nat]) as Hout.
  { rewrite (dense_shape h2 1%nat None out), Hh2.
    - by rewrite removelast_last.
    - apply Hans. do 2 apply list_elem_of_further. apply list_elem_of_here. }
  rewrite (reshape_flat out preds), Hout.
  - by rewrite num_elements_snoc_one.
  - apply Hans. do 3 apply list_elem_of_further. apply list_elem_of_here.
Qed.

Lemma model_fn_one_prediction_per_vector_witness :
  ∃ h1 h2 out preds,
    network_calls (Graph.Input "x" [2; 3; 7]%nat float32) h1 h2 out preds
      `prefix_of`
        log Graph.tf
          (model_fn {[ "x" := Graph.Input "x" [2; 3; 7]%nat float32 ]} None
                    PREDICT ∅) 0%nat
    ∧ Graph.shape preds = [6%nat].
Proof.
  eapply (model_fn_one_prediction_per_vector Graph.tf Graph.shape
            graph_shape_laws
            {[ "x" := Graph.Input "x" [2; 3; 7]%nat float32 ]} None PREDICT ∅
            0%nat).
  - vm_compute. reflexivity.
  - reflexivity.
Defined.

(** * Further properties of the notebook *)

Lemma notebook_estimator_call_witness :
  filter (fun st => st = SEstimator)
    (steps (trace Sim.service notebook Sim.fresh)) = [SEstimator]
  ∧ ∃ role est pred tp,
      Entry get_execution_role (Ok role) ∈ log Sim.service notebook Sim.fresh
      ∧ Entry (TensorFlow (abalone_estimator_args role)) (Ok est)
          ∈ log Sim.service notebook Sim.fresh
      ∧ Entry (deploy est 1 "ml.m4.xlarge") (Ok pred)
          ∈ log Sim.service notebook Sim.fresh
      ∧ Entry (predict pred tp) (Ok ["9.5"])
          ∈ log Sim.service notebook Sim.fresh.
Proof.
  apply (notebook_estimator_call Sim.service Sim.fresh ["9.5"]).
  vm_compute. reflexivity.
Defined.

Section NotebookFlow.
Context `{CloudHandles} {St : Type} (h : handler nbE St).

(** Whatever the services answer, a training job is only ever started on the
    estimator built with the keyword arguments of cell 17, under the role that
    [get_execution_role] returned, and on the S3 location that the upload of
    the [data] directory returned. *)
Theorem notebook_fit_flow s ent :
  ent ∈ log h notebook s ->
  step_of (called ent) = SFit ->
  ∃ session role inputs est,
    called ent = ev_of (fit est inputs)
    ∧ Entry get_execution_role (Ok role) ∈ log h notebook s
    ∧ Entry (upload_data session "data" "data/DEMO-abalone") (Ok inputs)
        ∈ log h notebook s
    ∧ Entry (TensorFlow (abalone_estimator_args role)) (Ok est)
        ∈ log h notebook s.
Proof.
  unfold log, notebook, cell_3, cell_5, cell_8, cell_17, cell_20,
    cell_23, cell_24, cell_26, getindex. simpl.
  do 8 (answer h;
    [|intros Hin Hstep; pick_entry Hin Hstep;
      eexists _, _, _, _; (split; [reflexivity|]); repeat split; find_entry]).
  destruct (data a6 !! 0%nat) as [row|]; simpl;
    [|intros Hin Hstep; pick_entry Hin Hstep;
      eexists _, _, _, _; (split; [reflexivity|]); repeat split; find_entry].
  do 4 (answer h;
    [|intros Hin Hstep; pick_entry Hin Hstep;
      eexists _, _, _, _; (split; [reflexivity|]); repeat split; find_entry]).
  intros Hin Hstep; pick_entry Hin Hstep.
  eexists _, _, _, _; (split; [reflexivity|]); repeat split; find_entry.
Qed.

(** Whatever the services answer, the endpoint is only ever invoked after
    training and deployment returned: the request goes to the predictor that
    [deploy] returned for the trained estimator, and it is the tensor that
    [make_tensor_proto] returned for one row. *)
Theorem notebook_predict_flow s ent :
  ent ∈ log h notebook s ->
  step_of (called ent) = SPredict ->
  ∃ est inputs pred row tp,
    called ent = ev_of (predict pred tp)
    ∧ Entry (fit est inputs) (Ok ()) ∈ log h notebook s
    ∧ Entry (deploy est 1 "ml.m4.xlarge") (Ok pred) ∈ log h notebook s
    ∧ Entry (make_tensor_proto row [1; Z.of_nat (length row)] float32) (Ok tp)
        ∈ log h notebook s.
Proof.
  unfold log, notebook, cell_3, cell_5, cell_8, cell_17, cell_20,
    cell_23, cell_24, cell_26, getindex. simpl.
  do 8 (answer h;
    [|intros Hin Hstep; pick_entry Hin Hstep;
      eexists _, _, _, _, _; (split; [reflexivity|]); repeat split;
      find_entry]).
  destruct (data a6 !! 0%nat) as [row|]; simpl;
    [|intros Hin Hstep; pick_entry Hin Hstep;
      eexists _, _, _, _, _; (split; [reflexivity|]); repeat split;
      find_entry].
  do 4 (answer h;
    [|intros Hin Hstep; pick_entry Hin Hstep;
      eexists _, _, _, _, _; (split; [reflexivity|]); repeat split;
      find_entry]).
  intros Hin Hstep; pick_entry Hin Hstep.
  eexists _, _, _, _, _; (split; [reflexivity|]); repeat split; find_entry.
Qed.

(** Whatever the services answer, an endpoint is only ever deleted after the
    invocation returned: the last three calls of the run are then the
    invocation that returned, the construction of a new session, and the
    deletion, through that new session, of the endpoint of the predictor that
    was deployed and invoked.  So when the invocation (or a cell before it)
    raises, the notebook deletes nothing. *)
Theorem notebook_delete_flow s ent :
  ent ∈ log h notebook s ->
  step_of (called ent) = SDelete ->
  ∃ l est pred tp resp session',
    log h notebook s =
      l ++ [ Entry (predict pred tp) (Ok resp);
             Entry sagemaker_Session (Ok session');
             ent ]
    ∧ called ent = ev_of (delete_endpoint session' (endpoint pred))
    ∧ Entry (deploy est 1 "ml.m4.xlarge") (Ok pred) ∈ l
    ∧ Forall (fun e => step_of (called e) ≠ SDelete) l.
Proof.
  unfold log, notebook, cell_3, cell_5, cell_8, cell_17, cell_20,
    cell_23, cell_24, cell_26, getindex. simpl.
  do 8 (answer h; [|intros Hin Hstep; pick_entry Hin Hstep]).
  destruct (data a6 !! 0%nat) as [row|]; simpl;
    [|intros Hin Hstep; pick_entry Hin Hstep].
  do 3 (answer h; [|intros Hin Hstep; pick_entry Hin Hstep]).
  answer h; intros Hin Hstep; pick_entry Hin Hstep;
    (eexists [_; _; _; _; _; _; _; _; _], _, _, _, _, _;
     split; [reflexivity|]; split; [reflexivity|]; split; [find_entry|];
     repeat (constructor; [discriminate|]); constructor).
Qed.

End NotebookFlow.

(** The log of the notebook on the simulated service. *)
Lemma sim_log :
  log Sim.service notebook Sim.fresh =
    notebook_calls () "arn:aws:iam::012345678901:role/SageMaker"
      "s3://sagemaker-us-west-2-012345678901/data/DEMO-abalone" 0
      (abalone_estimator_args "arn:aws:iam::012345678901:role/SageMaker")
      "abalone-endpoint" (dataset_of_rows Sim.abalone_predict_csv)
      ["0.295"; "0.225"; "0.08"; "0.124"; "0.0485"; "0.032"; "0.04"]
      {| Sim.values := ["0.295"; "0.225"; "0.08"; "0.124"; "0.0485"; "0.032";
                        "0.04"];
         Sim.shape := [1; 7]; Sim.dtype := float32 |}
      ["9.5"] ().
Proof. reflexivity. Qed.

(** The log of the notebook on the simulated service, when the prediction
    file has no row. *)
Lemma sim_empty_log :
  log (serving []) notebook Sim.fresh =
    take 8
      (notebook_calls () "arn:aws:iam::012345678901:role/SageMaker"
         "s3://sagemaker-us-west-2-012345678901/data/DEMO-abalone" 0
         (abalone_estimator_args "arn:aws:iam::012345678901:role/SageMaker")
         "abalone-endpoint" (dataset_of_rows []) []
         {| Sim.values := []; Sim.shape := []; Sim.dtype := float32 |}
         [] ()).
Proof. reflexivity. Qed.

Lemma notebook_fit_flow_witness :
  ∃ session role inputs est,
    called (Entry (fit (abalone_estimator_args
                          "arn:aws:iam::012345678901:role/SageMaker")
                       "s3://sagemaker-us-west-2-012345678901/data/DEMO-abalone")
                  (Ok ()))
      = ev_of (fit est inputs)
    ∧ Entry get_execution_role (Ok role) ∈ log Sim.service notebook Sim.fresh
    ∧ Entry (upload_data session "data" "data/DEMO-abalone") (Ok inputs)
        ∈ log Sim.service notebook Sim.fresh
    ∧ Entry (TensorFlow (abalone_estimator_args role)) (Ok est)
        ∈ log Sim.service notebook Sim.fresh.
Proof.
  apply (notebook_fit_flow Sim.service Sim.fresh).
  - rewrite sim_log. unfold notebook_calls. find_entry.
  - reflexivity.
Defined.

Lemma notebook_predict_flow_witness :
  ∃ est inputs pred row tp,
    called (Entry (predict "abalone-endpoint"
                     {| Sim.values := ["0.295"; "0.225"; "0.08"; "0.124";
                                       "0.0485"; "0.032"; "0.04"];
                        Sim.shape := [1; 7]; Sim.dtype := float32 |})
                  (Ok ["9.5"]))
      = ev_of (predict pred tp)
    ∧ Entry (fit est inputs) (Ok ()) ∈ log Sim.service notebook Sim.fresh
    ∧ Entry (deploy est 1 "ml.m4.xlarge") (Ok pred)
        ∈ log Sim.service notebook Sim.fresh
    ∧ Entry (make_tensor_proto row [1; Z.of_nat (length row)] float32) (Ok tp)
        ∈ log Sim.service notebook Sim.fresh.
Proof.
  apply (notebook_predict_flow Sim.service Sim.fresh).
  - rewrite sim_log. unfold notebook_calls. find_entry.
  - reflexivity.
Defined.

Lemma notebook_delete_flow_witness :
  ∃ l est pred tp resp session',
    log Sim.service notebook Sim.fresh =
      l ++ [ Entry (predict pred tp) (Ok resp);
             Entry sagemaker_Session (Ok session');
             Entry (delete_endpoint () "abalone-endpoint") (Ok ()) ]
    ∧ called (Entry (delete_endpoint () "abalone-endpoint") (Ok ()))
      = ev_of (delete_endpoint session' (endpoint pred))
    ∧ Entry (deploy est 1 "ml.m4.xlarge") (Ok pred) ∈ l
    ∧ Forall (fun e => step_of (called e) ≠ SDelete) l.
Proof.
  apply (notebook_delete_flow Sim.service Sim.fresh).
  - rewrite sim_log. unfold notebook_calls. find_entry.
  - reflexivity.
Defined.

Lemma length_removelast_nonempty {A} (l : list A) :
  l ≠ [] -> Z.of_nat (length (removelast l)) = Z.of_nat (length l) - 1.
Proof.
  intros Hne. destruct (exists_last Hne) as (l' & a & ->).
  rewrite removelast_last, length_app. simpl. lia.
Qed.

Section NotebookData.
Context `{CloudHandles} {St : Type} (h : handler nbE St).

(** When the prediction data set has no row, [prediction_set.data[0]] raises
    [IndexError]: no run returns, no tensor is made, the endpoint that was
    deployed is neither invoked nor deleted, and a run whose calls all
    returned ends with that [IndexError]. *)
Theorem notebook_empty_dataset s :
  (∀ s0 ds,
     (h _ (load_csv_without_header "data/abalone_predict.csv" np_int float32)
        s0).1 = Ok ds ->
     data ds = []) ->
  Forall (fun st => st ≠ SMakeProto ∧ st ≠ SPredict ∧ st ≠ SDelete)
    (steps (trace h notebook s))
  ∧ (∀ resp, run h notebook s ≠ Ok resp)
  ∧ (Forall (fun ent => raised ent = None) (log h notebook s) ->
     ∃ msg, run h notebook s = Err (IndexError msg)
            ∧ SDeploy ∈ steps (trace h notebook s)).
Proof.
  intros Hfile.
  unfold steps, trace, run, log, notebook, cell_3, cell_5, cell_8, cell_17,
    cell_20, cell_23, cell_24, cell_26, getindex. simpl.
  do 8 (answer h;
    [|split; [repeat (constructor; [by repeat split|]); constructor|];
      split; [by intros ?|]; intros Hall; exfalso;
      repeat (apply Forall_cons in Hall as [? Hall]); simpl in *;
      congruence]).
  assert (data a6 = []) as ->.
  { apply (Hfile s6). by rewrite Hh6. }
  simpl.
  split; [repeat (constructor; [by repeat split|]); constructor|].
  split; [by intros ?|]. intros _. eexists. split; [done|]. find_entry.
Qed.

(** The width of the request follows the prediction file, not the model: for
    a first row of [k + 1] fields the one request of a complete run has shape
    [[1, k]], and holds the first [k] fields of that row as float32; the last
    field, the target, and all other rows are left out. *)
Theorem request_follows_first_row s resp rows row :
  (∀ s0, (h _ (load_csv_without_header "data/abalone_predict.csv" np_int
                 float32) s0).1 = Ok (dataset_of_rows rows)) ->
  rows !! 0%nat = Some row ->
  row ≠ [] ->
  run h notebook s = Ok resp ->
  ∃ pred tp,
    Entry (make_tensor_proto (np_float32_of <$> removelast row)
             [1; Z.of_nat (length row) - 1] float32) (Ok tp)
      ∈ log h notebook s
    ∧ Entry (predict pred tp) (Ok resp) ∈ log h notebook s.
Proof.
  intros Hfile Hrow Hne Hrun.
  apply notebook_ok_inv in Hrun
    as (session & role & inputs & status & est & pred & ds & row' & tp
        & session' & Hrow' & Hlog).
  assert (Entry (load_csv_without_header "data/abalone_predict.csv" np_int
                   float32) (Ok ds) ∈ log h notebook s) as Hds.
  { rewrite Hlog. unfold notebook_calls. find_entry. }
  apply log_answered in Hds as [s0 Hds]. rewrite Hfile in Hds.
  injection Hds as <-.
  unfold dataset_of_rows in Hrow'. simpl in Hrow'.
  rewrite list_lookup_fmap, Hrow in Hrow'. injection Hrow' as <-.
  exists pred, tp. rewrite Hlog. unfold notebook_calls.
  rewrite length_fmap, (length_removelast_nonempty row Hne).
  split; find_entry.
Qed.

End NotebookData.

Lemma notebook_empty_dataset_witness :
  run (serving []) notebook Sim.fresh = Err (IndexError "index out of bounds")
  ∧ Forall (fun st => st ≠ SMakeProto ∧ st ≠ SPredict ∧ st ≠ SDelete)
      (steps (trace (serving []) notebook Sim.fresh))
  ∧ SDeploy ∈ steps (trace (serving []) notebook Sim.fresh).
Proof.
  destruct (notebook_empty_dataset (serving []) Sim.fresh)
    as (Hnone & _ & Herr).
  - intros s0 ds [= <-]. reflexivity.
  - split; [reflexivity|]. split; [exact Hnone|].
    destruct Herr as (msg & _ & Hdeploy); [|exact Hdeploy].
    rewrite sim_empty_log. unfold notebook_calls. simpl. repeat constructor.
Defined.

Lemma request_follows_first_row_witness :
  ∃ pred tp,
    Entry (make_tensor_proto ["1.5"; "2.5"] [1; 2] float32) (Ok tp)
      ∈ log (serving [["1.5"; "2.5"; "4"]; ["0.5"; "7"]]) notebook Sim.fresh
    ∧ Entry (predict pred tp) (Ok ["9.5"])
        ∈ log (serving [["1.5"; "2.5"; "4"]; ["0.5"; "7"]]) notebook Sim.fresh.
Proof.
  apply (request_follows_first_row
           (serving [["1.5"; "2.5"; "4"]; ["0.5"; "7"]]) Sim.fresh ["9.5"]
           [["1.5"; "2.5"; "4"]; ["0.5"; "7"]] ["1.5"; "2.5"; "4"]).
  - intros s0. reflexivity.
  - reflexivity.
  - discriminate.
  - vm_compute. reflexivity.
Defined.
